(** * Virtio watchdog driver (drivers/watchdog/virtio_wdt.c)

    A model of the guest side of the virtio watchdog: the four watchdog
    operations, the event they put on the "event" virtqueue, the blocking
    wait of the synchronous ones, and the attach sequence with its error
    paths.

    The driver's own functions are transcribed from virtio_wdt.c.  What the
    driver calls but does not define (the virtqueue, the byte-order helpers,
    the watchdog core, the allocator) is modelled in the first half of the
    file, each piece under a comment saying so. *)

From stdpp Require Import base list numbers.
From Stdlib Require Import ZArith Lia.

Open Scope Z_scope.

(** ** Constants *)

(** From virtio_wdt.c, lines 17-19. *)
Definition VIRTIO_WATCHDOG_HEARTBEAT_TIMEOUT : Z := 30.
Definition VIRTIO_WATCHDOG_HEARTBEAT_TIMEOUT_MIN : Z := 1.
Definition VIRTIO_WATCHDOG_HEARTBEAT_TIMEOUT_MAX : Z := 600.

(** Modelled from the spec: linux/virtio_wdt.h is not part of the sources;
    the event tags are the ones the interface section lists
    (HEARTBEAT=0, ENABLE=1, DISABLE=2). *)
Definition VIRTIO_WATCHDOG_HEARTBEAT : Z := 0.
Definition VIRTIO_WATCHDOG_ENABLE : Z := 1.
Definition VIRTIO_WATCHDOG_DISABLE : Z := 2.

(** Modelled from the spec: errno values and the feature bit number come from
    kernel headers that are not part of the sources (errno-base.h,
    virtio_config.h); they stand for ResourceExhausted, InvalidFeatureSet,
    ConfigAccessDenied and the "mandatory version flag". *)
Definition ENOMEM : Z := 12.
Definition ENODEV : Z := 19.
Definition EINVAL : Z := 22.
Definition VIRTIO_F_VERSION_1 : Z := 32.

(** C integer types: the value an unsigned w-bit object holds. *)
Definition u16 (x : Z) : Z := x mod 2 ^ 16.
Definition u32 (x : Z) : Z := x mod 2 ^ 32.

(** ** Byte order *)

(** The byte order the kernel is built for. *)
Inductive byte_order := LittleEndian | BigEndian.

Definition swab16 (x : Z) : Z :=
  Z.lor (Z.shiftl (Z.land x 255) 8) (Z.land (Z.shiftr x 8) 255).

(** The bytes, in address order, of a 16-bit object holding [x]. *)
Definition mem16 (cpu : byte_order) (x : Z) : list Z :=
  match cpu with
  | LittleEndian => [Z.land x 255; Z.land (Z.shiftr x 8) 255]
  | BigEndian => [Z.land (Z.shiftr x 8) 255; Z.land x 255]
  end.

(** The little-endian encoding of a 16-bit value, whatever the host. *)
Definition le16_bytes (x : Z) : list Z :=
  [Z.land x 255; Z.land (Z.shiftr x 8) 255].

(** ** The virtio device *)

Record virtio_device := {
  features : Z;        (* negotiated feature bits *)
  config_get : bool    (* vdev->config->get is not NULL *)
}.

Definition virtio_has_feature (vdev : virtio_device) (fbit : Z) : bool :=
  Z.testbit (features vdev) fbit.

(** Modelled from the spec: cpu_to_virtio16 and the helpers under it
    (linux/virtio_config.h, linux/virtio_byteorder.h) are not part of the
    sources.  The type tag is "encoded in a single agreed byte order
    independent of host endianness": little-endian for a version-1 device,
    the guest's own order for a legacy one. *)
Definition cpu_to_le16 (cpu : byte_order) (x : Z) : Z :=
  match cpu with LittleEndian => x | BigEndian => swab16 x end.

Definition cpu_to_be16 (cpu : byte_order) (x : Z) : Z :=
  match cpu with LittleEndian => swab16 x | BigEndian => x end.

Definition virtio_legacy_is_little_endian (cpu : byte_order) : bool :=
  match cpu with LittleEndian => true | BigEndian => false end.

Definition virtio_is_little_endian (cpu : byte_order) (vdev : virtio_device)
  : bool :=
  virtio_has_feature vdev VIRTIO_F_VERSION_1
  || virtio_legacy_is_little_endian cpu.

Definition cpu_to_virtio16 (cpu : byte_order) (vdev : virtio_device) (val : Z)
  : Z :=
  if virtio_is_little_endian cpu vdev
  then cpu_to_le16 cpu val
  else cpu_to_be16 cpu val.

(** ** The protocol message *)

(** struct virtio_watchdog_event: one 16-bit field. *)
Record virtio_watchdog_event := { type : Z }.

(** sg_init_one(&sg, &evt, sizeof(evt)): the scatterlist covers the bytes of
    the event as they lie in memory. *)
Definition sg_init_one (cpu : byte_order) (evt : virtio_watchdog_event)
  : list Z :=
  mem16 cpu (type evt).

(** ** The transport queue *)

(** Modelled from the spec: the virtqueue implementation is not part of the
    sources.  It is the transport queue of the spec: an ordered channel of
    buffers.  [avail] holds the buffers submitted and not yet consumed by the
    remote side (the unacknowledged ones), [used] the buffers the remote
    side has returned and the driver has not yet taken back, [kicks] counts
    the notifications.  "Submission itself is assumed always to succeed." *)
Record virtqueue := {
  avail : list (list Z);
  used : list (list Z);
  kicks : nat
}.

Definition empty_vq : virtqueue := {| avail := []; used := []; kicks := 0 |}.

(** submit, first half: queue one outbound buffer. *)
Definition virtqueue_add_outbuf (q : virtqueue) (sg : list Z) : virtqueue :=
  {| avail := avail q ++ [sg]; used := used q; kicks := kicks q |}.

(** submit, second half: notify the remote side. *)
Definition virtqueue_kick (q : virtqueue) : virtqueue :=
  {| avail := avail q; used := used q; kicks := S (kicks q) |}.

(** try_reclaim: "non-blocking check of whether a previously submitted
    buffer has been returned"; a returned buffer is taken off the queue. *)
Definition virtqueue_get_buf (q : virtqueue) : option (list Z * virtqueue) :=
  match used q with
  | [] => None
  | b :: u => Some (b, {| avail := avail q; used := u; kicks := kicks q |})
  end.

(** The remote consumer takes the oldest submitted buffer and returns it. *)
Definition vq_consume (q : virtqueue) : option virtqueue :=
  match avail q with
  | [] => None
  | b :: a => Some {| avail := a; used := used q ++ [b]; kicks := kicks q |}
  end.

(** Messages submitted and not yet acknowledged by the remote side. *)
Definition outstanding (q : virtqueue) : nat := length (avail q).

(** ** The session *)

(** The part of struct watchdog_device the driver fills in. *)
Record watchdog_device := {
  min_timeout : Z;
  max_timeout : Z;
  wdd_timeout : Z;
  nowayout : bool;
  stop_on_reboot : bool;
  stop_on_unregister : bool
}.

(** What vwdt->vq can hold: nothing yet, an ERR_PTR, or the event queue. *)
Inductive vq_handle := VqNull | VqErr (e : Z) | VqEvent.

Definition IS_ERR (p : vq_handle) : bool :=
  match p with VqErr _ => true | _ => false end.

Definition PTR_ERR (p : vq_handle) : Z :=
  match p with VqErr e => e | _ => 0 end.

(** struct virtio_wdt (pdev is never touched and is left out).  [evt_acked]
    is the wait queue: the callers asleep on it.  [lock] tells whether the
    spinlock is held. *)
Record virtio_wdt := {
  vdev : virtio_device;
  wdd : watchdog_device;
  vq : vq_handle;
  timeout : Z;
  evt_acked : list nat;
  lock : bool
}.

Definition set_evt_acked (l : list nat) (w : virtio_wdt) : virtio_wdt :=
  {| vdev := vdev w; wdd := wdd w; vq := vq w; timeout := timeout w;
     evt_acked := l; lock := lock w |}.

(** ** The machine the operations run on *)

(** The session, its queue, and the timeout field of the device's
    configuration space (struct virtio_watchdog_config). *)
Record machine := {
  session : virtio_wdt;
  ring : virtqueue;
  config_timeout : Z
}.

Definition set_ring (q : virtqueue) (m : machine) : machine :=
  {| session := session m; ring := q; config_timeout := config_timeout m |}.

Definition set_session (w : virtio_wdt) (m : machine) : machine :=
  {| session := w; ring := ring m; config_timeout := config_timeout m |}.

Definition set_config_timeout (v : Z) (m : machine) : machine :=
  {| session := session m; ring := ring m; config_timeout := v |}.

(** ** Calls into the driver *)

(** A call is the sequence of kernel primitives it goes through; each
    constructor is one primitive followed by the rest of the call. *)
Inductive call (R : Type) : Type :=
| Return (r : R)
| Add_outbuf (sg : list Z) (k : call R)
| Kick (k : call R)
| Wait_event (k : call R)
| Cwrite_timeout (v : Z) (k : call R).

Arguments Return {R} r.
Arguments Add_outbuf {R} sg k.
Arguments Kick {R} k.
Arguments Wait_event {R} k.
Arguments Cwrite_timeout {R} v k.

Fixpoint call_bind {A B : Type} (f : A -> call B) (c : call A) : call B :=
  match c with
  | Return a => f a
  | Add_outbuf sg k => Add_outbuf sg (call_bind f k)
  | Kick k => Kick (call_bind f k)
  | Wait_event k => Wait_event (call_bind f k)
  | Cwrite_timeout v k => Cwrite_timeout v (call_bind f k)
  end.

#[global] Instance call_ret : MRet call := @Return.
#[global] Instance call_mbind : MBind call := @call_bind.

(** virtqueue_add_outbuf(vwdt->vq, &sg, 1, vwdt, GFP_KERNEL) *)
Definition add_outbuf (sg : list Z) : call unit := Add_outbuf sg (Return tt).
(** virtqueue_kick(vwdt->vq) *)
Definition kick : call unit := Kick (Return tt).
(** wait_event(vwdt->evt_acked, virtqueue_get_buf(vwdt->vq, &len)) *)
Definition wait_event_get_buf : call unit := Wait_event (Return tt).
(** virtio_cwrite(vdev, struct virtio_watchdog_config, timeout, &v) *)
Definition virtio_cwrite_timeout (v : Z) : call unit :=
  Cwrite_timeout v (Return tt).

(** The value a call hands back when it gets to its end. *)
Fixpoint outcome {R : Type} (c : call R) : R :=
  match c with
  | Return r => r
  | Add_outbuf _ k | Kick k | Wait_event k | Cwrite_timeout _ k => outcome k
  end.

(** Whether a call has a blocking wait ahead of it. *)
Fixpoint waits {R : Type} (c : call R) : bool :=
  match c with
  | Return _ => false
  | Wait_event _ => true
  | Add_outbuf _ k | Kick k | Cwrite_timeout _ k => waits k
  end.

(** ** The driver (virtio_wdt.c) *)

Section Driver.

Variable cpu : byte_order.

(** send_event, lines 79-98. *)
Definition send_event (vwdt : virtio_wdt) (type : Z) : call unit :=
  let evt := {| type := cpu_to_virtio16 cpu (vdev vwdt) type |} in
  let sg := sg_init_one cpu evt in
  add_outbuf sg;;
  kick;;
  if negb (type =? VIRTIO_WATCHDOG_HEARTBEAT)
  then wait_event_get_buf
  else mret tt.

(** virtwdt_ping, lines 100-106. *)
Definition virtwdt_ping (vwdt : virtio_wdt) : call Z :=
  send_event vwdt VIRTIO_WATCHDOG_HEARTBEAT;;
  mret 0.

(** virtwdt_start, lines 108-114. *)
Definition virtwdt_start (vwdt : virtio_wdt) : call Z :=
  send_event vwdt VIRTIO_WATCHDOG_ENABLE;;
  mret 0.

(** virtwdt_stop, lines 116-122. *)
Definition virtwdt_stop (vwdt : virtio_wdt) : call Z :=
  send_event vwdt VIRTIO_WATCHDOG_DISABLE;;
  mret 0.

(** virtwdt_set_timeout, lines 124-133. *)
Definition virtwdt_set_timeout (vwdt : virtio_wdt) (new_timeout : Z)
  : call Z :=
  virtio_cwrite_timeout (u32 new_timeout);;
  mret 0.

End Driver.

(** ** Running calls *)

(** Modelled from the spec: wait queues (linux/wait.h) are not part of the
    sources.  The completion signal is "a wait primitive the Session owns,
    satisfied by the transport layer's receive callback": a caller whose
    wake predicate fails is parked on it, wake_up releases everybody parked,
    and a released caller evaluates its predicate again. *)
Definition prepare_to_wait (tid : nat) (w : virtio_wdt) : virtio_wdt :=
  set_evt_acked (tid :: evt_acked w) w.

Definition wake_up (w : virtio_wdt) : virtio_wdt := set_evt_acked [] w.

Definition asleep (tid : nat) (m : machine) : bool :=
  bool_decide (tid ∈ evt_acked (session m)).

(** handle_event, lines 49-55: the queue's callback. *)
Definition handle_event (m : machine) : machine :=
  let vwdt := session m in
  set_session (wake_up vwdt) m.

(** One primitive of caller [tid].  [None]: the caller cannot move (it has
    returned, or it sleeps on evt_acked).  A caller that finds its wake
    predicate false goes to sleep and stays at the wait. *)
Definition step_call {R : Type} (tid : nat) (m : machine) (c : call R)
  : option (machine * call R) :=
  match c with
  | Return _ => None
  | Add_outbuf sg k => Some (set_ring (virtqueue_add_outbuf (ring m) sg) m, k)
  | Kick k => Some (set_ring (virtqueue_kick (ring m)) m, k)
  | Cwrite_timeout v k => Some (set_config_timeout v m, k)
  | Wait_event k =>
      if asleep tid m then None
      else match virtqueue_get_buf (ring m) with
           | Some (_, q) => Some (set_ring q m, k)
           | None => Some (set_session (prepare_to_wait tid (session m)) m, c)
           end
  end.

(** The remote side consumes one buffer, returns it, and the queue's
    callback runs.  With nothing submitted it does nothing. *)
Definition host_step (m : machine) : machine :=
  match vq_consume (ring m) with
  | Some q => handle_event (set_ring q m)
  | None => m
  end.

(** Callers running against one session; caller [i] is [threads !! i]. *)
Record system := {
  mach : machine;
  threads : list (call Z)
}.

Inductive actor := Host | Caller (i : nat).

#[global] Instance actor_eq_dec : EqDecision actor.
Proof. solve_decision. Defined.

Definition sys_step (s : system) (a : actor) : system :=
  match a with
  | Host => {| mach := host_step (mach s); threads := threads s |}
  | Caller i =>
      match threads s !! i with
      | Some c =>
          match step_call i (mach s) c with
          | Some (m, c') => {| mach := m; threads := <[i := c']> (threads s) |}
          | None => s
          end
      | None => s
      end
  end.

(** An interleaving is the list of who moves next. *)
Definition run (sched : list actor) (s : system) : system :=
  foldl sys_step s sched.

(** What caller [i] has returned, if it has. *)
Definition returned (s : system) (i : nat) : option Z :=
  match threads s !! i with
  | Some (Return r) => Some r
  | _ => None
  end.

(** How often an interleaving lets caller [i] move. *)
Definition turns (i : nat) (sched : list actor) : nat :=
  length (filter (λ a, a = Caller i) sched).

(** ** Attaching *)

(** What the attach sequence acquires and releases. *)
Inductive resource_op :=
| Op_kzalloc | Op_find_vq | Op_register | Op_reset | Op_del_vqs | Op_kfree
| Op_device_ready.

(** The kernel as probe sees it.  [heap] is the block kzalloc handed out,
    while it is allocated; [priv] tells whether vdev->priv holds an address;
    [queue] is the device's event queue while it exists; [registered] tells
    whether the watchdog core knows the session; [trace] lists the resource
    operations done so far, oldest first. *)
Record kstate := {
  heap : option virtio_wdt;
  priv : bool;
  queue : option virtqueue;
  registered : bool;
  driver_ok : bool;
  kconfig_timeout : Z;
  trace : list resource_op
}.

(** What the rest of the kernel answers during one attach, and the module
    parameters. *)
Record environment := {
  kzalloc_ok : bool;            (* kzalloc finds memory *)
  find_vq_error : option Z;     (* virtio_find_single_vq: ERR_PTR(e), or a queue *)
  register_result : Z;          (* what watchdog_register_device returns *)
  param_timeout : Z;            (* module parameter timeout (int) *)
  param_nowayout : bool         (* module parameter nowayout *)
}.

(** Before the attach: nothing acquired; [cfg] is what the device's
    configuration space holds. *)
Definition fresh (cfg : Z) : kstate :=
  {| heap := None; priv := false; queue := None; registered := false;
     driver_ok := false; kconfig_timeout := cfg; trace := [] |}.

Definition kernel (A : Type) : Type := kstate -> A * kstate.

#[global] Instance kernel_ret : MRet kernel := λ A a k, (a, k).
#[global] Instance kernel_bind : MBind kernel :=
  λ A B f c k, let '(a, k') := c k in f a k'.

Definition with_heap (h : option virtio_wdt) (k : kstate) : kstate :=
  {| heap := h; priv := priv k; queue := queue k; registered := registered k;
     driver_ok := driver_ok k; kconfig_timeout := kconfig_timeout k;
     trace := trace k |}.

Definition with_priv (b : bool) (k : kstate) : kstate :=
  {| heap := heap k; priv := b; queue := queue k; registered := registered k;
     driver_ok := driver_ok k; kconfig_timeout := kconfig_timeout k;
     trace := trace k |}.

Definition with_queue (q : option virtqueue) (k : kstate) : kstate :=
  {| heap := heap k; priv := priv k; queue := q; registered := registered k;
     driver_ok := driver_ok k; kconfig_timeout := kconfig_timeout k;
     trace := trace k |}.

Definition with_registered (b : bool) (k : kstate) : kstate :=
  {| heap := heap k; priv := priv k; queue := queue k; registered := b;
     driver_ok := driver_ok k; kconfig_timeout := kconfig_timeout k;
     trace := trace k |}.

Definition with_driver_ok (b : bool) (k : kstate) : kstate :=
  {| heap := heap k; priv := priv k; queue := queue k;
     registered := registered k; driver_ok := b;
     kconfig_timeout := kconfig_timeout k; trace := trace k |}.

Definition logged (o : resource_op) (k : kstate) : kstate :=
  {| heap := heap k; priv := priv k; queue := queue k;
     registered := registered k; driver_ok := driver_ok k;
     kconfig_timeout := kconfig_timeout k; trace := trace k ++ [o] |}.

(** Field updates of struct virtio_wdt and of its watchdog_device. *)
Definition set_vdev (d : virtio_device) (w : virtio_wdt) : virtio_wdt :=
  {| vdev := d; wdd := wdd w; vq := vq w; timeout := timeout w;
     evt_acked := evt_acked w; lock := lock w |}.

Definition set_wdd (x : watchdog_device) (w : virtio_wdt) : virtio_wdt :=
  {| vdev := vdev w; wdd := x; vq := vq w; timeout := timeout w;
     evt_acked := evt_acked w; lock := lock w |}.

Definition set_vq (p : vq_handle) (w : virtio_wdt) : virtio_wdt :=
  {| vdev := vdev w; wdd := wdd w; vq := p; timeout := timeout w;
     evt_acked := evt_acked w; lock := lock w |}.

Definition set_timeout (t : Z) (w : virtio_wdt) : virtio_wdt :=
  {| vdev := vdev w; wdd := wdd w; vq := vq w; timeout := t;
     evt_acked := evt_acked w; lock := lock w |}.

Definition set_min_timeout (t : Z) (x : watchdog_device) : watchdog_device :=
  {| min_timeout := t; max_timeout := max_timeout x;
     wdd_timeout := wdd_timeout x; nowayout := nowayout x;
     stop_on_reboot := stop_on_reboot x;
     stop_on_unregister := stop_on_unregister x |}.

Definition set_max_timeout (t : Z) (x : watchdog_device) : watchdog_device :=
  {| min_timeout := min_timeout x; max_timeout := t;
     wdd_timeout := wdd_timeout x; nowayout := nowayout x;
     stop_on_reboot := stop_on_reboot x;
     stop_on_unregister := stop_on_unregister x |}.

Definition set_wdd_timeout (t : Z) (x : watchdog_device) : watchdog_device :=
  {| min_timeout := min_timeout x; max_timeout := max_timeout x;
     wdd_timeout := t; nowayout := nowayout x;
     stop_on_reboot := stop_on_reboot x;
     stop_on_unregister := stop_on_unregister x |}.

(** An all-zero struct virtio_wdt: what kzalloc hands out.  The NULL device
    pointer reads as a device without features. *)
Definition zeroed : virtio_wdt :=
  {| vdev := {| features := 0; config_get := false |};
     wdd := {| min_timeout := 0; max_timeout := 0; wdd_timeout := 0;
               nowayout := false; stop_on_reboot := false;
               stop_on_unregister := false |};
     vq := VqNull; timeout := 0; evt_acked := []; lock := false |}.

(** Modelled from the spec: the allocator, the virtio core and the watchdog
    core are not part of the sources.  Session allocation and queue creation
    can fail ("ResourceExhausted", "TransportUnavailable"), registration
    reports an error code, and the detach-side primitives cannot fail. *)
Definition kzalloc (env : environment) : kernel bool :=
  λ k, if kzalloc_ok env
       then (true, logged Op_kzalloc (with_heap (Some zeroed) k))
       else (false, k).

Definition kfree : kernel unit :=
  λ k, (tt, logged Op_kfree (with_heap None k)).

(** vdev->priv = vwdt *)
Definition set_priv (vwdt : bool) : kernel unit :=
  λ k, (tt, with_priv vwdt k).

(** A store through the vwdt pointer. *)
Definition store (f : virtio_wdt -> virtio_wdt) : kernel unit :=
  λ k, (tt, with_heap (f <$> heap k) k).

Definition store_wdd (f : watchdog_device -> watchdog_device) : kernel unit :=
  store (λ w, set_wdd (f (wdd w)) w).

Definition virtio_find_single_vq (env : environment) : kernel vq_handle :=
  λ k, match find_vq_error env with
       | Some e => (VqErr e, k)
       | None => (VqEvent, logged Op_find_vq (with_queue (Some empty_vq) k))
       end.

Definition del_vqs : kernel unit :=
  λ k, (tt, logged Op_del_vqs (with_queue None k)).

Definition virtio_reset_device : kernel unit :=
  λ k, (tt, logged Op_reset (with_driver_ok false k)).

Definition virtio_device_ready : kernel unit :=
  λ k, (tt, logged Op_device_ready (with_driver_ok true k)).

Definition watchdog_register_device (env : environment) : kernel Z :=
  λ k, if register_result env =? 0
       then (0, logged Op_register (with_registered true k))
       else (register_result env, k).

Definition init_waitqueue_head (w : virtio_wdt) : virtio_wdt :=
  set_evt_acked [] w.

(** Modelled from the spec: watchdog_init_timeout belongs to the watchdog
    core, which is not part of the sources.  "Configuration-time default
    resolution clamps any externally supplied default to this same range,
    falling back to 30 if none given"; the module parameter is 0 when none
    is given, and the fallback is the value the driver has put in
    wdd.timeout. *)
Definition watchdog_init_timeout (timeout_parm : Z) (x : watchdog_device)
  : watchdog_device :=
  if timeout_parm =? 0 then x
  else set_wdd_timeout
         (Z.max (min_timeout x) (Z.min (max_timeout x) timeout_parm)) x.

Definition watchdog_set_nowayout (b : bool) (x : watchdog_device)
  : watchdog_device :=
  if b then
    {| min_timeout := min_timeout x; max_timeout := max_timeout x;
       wdd_timeout := wdd_timeout x; nowayout := true;
       stop_on_reboot := stop_on_reboot x;
       stop_on_unregister := stop_on_unregister x |}
  else x.

Definition watchdog_stop_on_reboot (x : watchdog_device) : watchdog_device :=
  {| min_timeout := min_timeout x; max_timeout := max_timeout x;
     wdd_timeout := wdd_timeout x; nowayout := nowayout x;
     stop_on_reboot := true;
     stop_on_unregister := stop_on_unregister x |}.

Definition watchdog_stop_on_unregister (x : watchdog_device)
  : watchdog_device :=
  {| min_timeout := min_timeout x; max_timeout := max_timeout x;
     wdd_timeout := wdd_timeout x; nowayout := nowayout x;
     stop_on_reboot := stop_on_reboot x;
     stop_on_unregister := true |}.

(** virtwdt_del_vq, lines 57-62. *)
Definition virtwdt_del_vq : kernel unit := del_vqs.

(** virtwdt_init_vq, lines 64-77.  The error taken out of the handle is
    bound to [err] and not used again. *)
Definition virtwdt_init_vq (env : environment) : kernel Z :=
  p ← virtio_find_single_vq env;
  store (set_vq p);;
  if IS_ERR p then
    let err := PTR_ERR p in
    mret (- ENOMEM)
  else mret 0.

(** virtwdt_probe, lines 148-205. *)
Definition virtwdt_probe (env : environment) (dev : virtio_device)
  : kernel Z :=
  if negb (virtio_has_feature dev VIRTIO_F_VERSION_1) then mret (- ENODEV)
  else if negb (config_get dev) then mret (- EINVAL)
  else
    vwdt ← kzalloc env;
    set_priv vwdt;;
    if negb vwdt then mret (- ENOMEM)
    else
      store (set_timeout VIRTIO_WATCHDOG_HEARTBEAT_TIMEOUT);;
      store init_waitqueue_head;;
      store (set_vdev dev);;
      err ← virtwdt_init_vq env;
      if negb (err =? 0) then
        (* free: *)
        kfree;; mret err
      else
        store_wdd (set_min_timeout VIRTIO_WATCHDOG_HEARTBEAT_TIMEOUT_MIN);;
        store_wdd (set_max_timeout VIRTIO_WATCHDOG_HEARTBEAT_TIMEOUT_MAX);;
        store_wdd (set_wdd_timeout VIRTIO_WATCHDOG_HEARTBEAT_TIMEOUT);;
        store_wdd (watchdog_init_timeout (u32 (param_timeout env)));;
        store_wdd (watchdog_set_nowayout (param_nowayout env));;
        store_wdd watchdog_stop_on_reboot;;
        store_wdd watchdog_stop_on_unregister;;
        err ← watchdog_register_device env;
        if negb (err =? 0) then
          (* free_dev: *)
          virtio_reset_device;;
          virtwdt_del_vq;;
          (* free: *)
          kfree;; mret err
        else
          virtio_device_ready;;
          mret 0.

(** virtwdt_remove, lines 207-217. *)
Definition virtwdt_remove : kernel unit :=
  virtio_reset_device;;
  virtwdt_del_vq;;
  kfree.

(** The machine the watchdog operations run on once probe has succeeded. *)
Definition attached (k : kstate) : option machine :=
  if registered k then
    match heap k, queue k with
    | Some vwdt, Some q =>
        Some {| session := vwdt; ring := q;
                config_timeout := kconfig_timeout k |}
    | _, _ => None
    end
  else None.

(** The operations table virtwdt_ops, lines 140-146. *)
Inductive operation :=
| Ping | Start | Stop | Set_timeout (new_timeout : Z).

Definition virtwdt_ops (cpu : byte_order) (vwdt : virtio_wdt) (op : operation)
  : call Z :=
  match op with
  | Start => virtwdt_start cpu vwdt
  | Stop => virtwdt_stop cpu vwdt
  | Ping => virtwdt_ping cpu vwdt
  | Set_timeout new_timeout => virtwdt_set_timeout vwdt new_timeout
  end.

(** The tag of the message an operation sends, if it sends one. *)
Definition event_type (op : operation) : option Z :=
  match op with
  | Ping => Some VIRTIO_WATCHDOG_HEARTBEAT
  | Start => Some VIRTIO_WATCHDOG_ENABLE
  | Stop => Some VIRTIO_WATCHDOG_DISABLE
  | Set_timeout _ => None
  end.

(** The buffers a call submits, in order. *)
Fixpoint submissions {R : Type} (c : call R) : list (list Z) :=
  match c with
  | Return _ => []
  | Add_outbuf sg k => sg :: submissions k
  | Kick k | Wait_event k | Cwrite_timeout _ k => submissions k
  end.

(** The primitives a call has ahead of it. *)
Fixpoint primitives {R : Type} (c : call R) : nat :=
  match c with
  | Return _ => 0
  | Add_outbuf _ k | Kick k | Wait_event k | Cwrite_timeout _ k =>
      S (primitives k)
  end.

(** What no operation writes: every field of the session but the wait
    queue. *)
Definition settings (w : virtio_wdt)
  : virtio_device * watchdog_device * vq_handle * Z * bool :=
  (vdev w, wdd w, vq w, timeout w, lock w).

(** The session a successful probe leaves behind (see [probe_run]). *)
Definition configured (env : environment) (dev : virtio_device) : virtio_wdt :=
  {| vdev := dev;
     wdd := {| min_timeout := VIRTIO_WATCHDOG_HEARTBEAT_TIMEOUT_MIN;
               max_timeout := VIRTIO_WATCHDOG_HEARTBEAT_TIMEOUT_MAX;
               wdd_timeout :=
                 if u32 (param_timeout env) =? 0
                 then VIRTIO_WATCHDOG_HEARTBEAT_TIMEOUT
                 else Z.max VIRTIO_WATCHDOG_HEARTBEAT_TIMEOUT_MIN
                        (Z.min VIRTIO_WATCHDOG_HEARTBEAT_TIMEOUT_MAX
                           (u32 (param_timeout env)));
               nowayout := param_nowayout env;
               stop_on_reboot := true;
               stop_on_unregister := true |};
     vq := VqEvent;
     timeout := VIRTIO_WATCHDOG_HEARTBEAT_TIMEOUT;
     evt_acked := [];
     lock := false |}.

(** ** A concrete attach, for the examples *)

(** A version-1 device with config access. *)
Definition wdt_device : virtio_device :=
  {| features := 2 ^ 32; config_get := true |}.

(** Every kernel service succeeds; no timeout parameter is given. *)
Definition plain_env : environment :=
  {| kzalloc_ok := true; find_vq_error := None; register_result := 0;
     param_timeout := 0; param_nowayout := false |}.

(** The queue cannot be set up (ENOSPC). *)
Definition no_queue_env : environment :=
  {| kzalloc_ok := true; find_vq_error := Some (-28); register_result := 0;
     param_timeout := 0; param_nowayout := false |}.

(** The watchdog core refuses the registration (EBUSY); the module was
    loaded with timeout=900. *)
Definition busy_env : environment :=
  {| kzalloc_ok := true; find_vq_error := None; register_result := -16;
     param_timeout := 900; param_nowayout := false |}.

(** The machine after [wdt_device] has been attached in [plain_env]. *)
Definition wdt_machine : machine :=
  {| session := configured plain_env wdt_device;
     ring := empty_vq;
     config_timeout := 0 |}.

(** ** A synchronous call on an idle queue *)

(** The code of start and stop around the buffer [sg] they submit. *)
Definition sync_code (sg : list Z) : call Z :=
  Add_outbuf sg (Kick (Wait_event (Return 0))).

(** The one buffer is with the remote side, or has come back from it. *)
Definition in_flight (sg : list Z) (q : virtqueue) : Prop :=
  (avail q = [sg] /\ used q = []) \/ (avail q = [] /\ used q = [sg]).

(** The states a lone synchronous call goes through when it starts on an
    empty queue. *)
Inductive sync_state (sg : list Z) : system -> Prop :=
| At_add m :
    avail (ring m) = [] -> used (ring m) = [] ->
    sync_state sg {| mach := m; threads := [sync_code sg] |}
| At_kick m :
    in_flight sg (ring m) ->
    sync_state sg {| mach := m; threads := [Kick (Wait_event (Return 0))] |}
| At_wait m :
    in_flight sg (ring m) ->
    sync_state sg {| mach := m; threads := [Wait_event (Return 0)] |}
| At_return m :
    avail (ring m) = [] -> used (ring m) = [] ->
    sync_state sg {| mach := m; threads := [Return 0] |}.

(** ** Bookkeeping over calls *)

(** The waits a call has ahead of it: each takes one returned buffer off the
    queue. *)
Fixpoint reclaims {R : Type} (c : call R) : nat :=
  match c with
  | Return _ => 0
  | Wait_event k => S (reclaims k)
  | Add_outbuf _ k | Kick k | Cwrite_timeout _ k => reclaims k
  end.

(** The kicks a call has ahead of it. *)
Fixpoint notifications {R : Type} (c : call R) : nat :=
  match c with
  | Return _ => 0
  | Kick k => S (notifications k)
  | Add_outbuf _ k | Wait_event k | Cwrite_timeout _ k => notifications k
  end.

(** The values a call is going to write to the configuration space. *)
Fixpoint config_writes {R : Type} (c : call R) : list Z :=
  match c with
  | Return _ => []
  | Cwrite_timeout v k => v :: config_writes k
  | Add_outbuf _ k | Kick k | Wait_event k => config_writes k
  end.

(** Buffers the driver has handed to the queue and not taken back. *)
Definition buffers (q : virtqueue) : Z :=
  Z.of_nat (length (avail q) + length (used q)).

(** What a call is still going to add to [buffers]: its submissions less
    its reclaims. *)
Definition debt (c : call Z) : Z :=
  Z.of_nat (length (submissions c)) - Z.of_nat (reclaims c).

Definition total (w : call Z -> Z) (ts : list (call Z)) : Z :=
  foldr (λ c acc, w c + acc) 0 ts.

Definition has_returned (c : call Z) : bool :=
  match c with Return _ => true | _ => false end.

(** Every caller of the system has returned. *)
Definition all_returned (s : system) : bool :=
  forallb has_returned (threads s).

Definition is_ping (op : operation) : bool :=
  match op with Ping => true | _ => false end.

(** Whether the operation puts a message on the queue. *)
Definition sends (op : operation) : bool :=
  match op with Set_timeout _ => false | _ => true end.

(** Whether the operation waits for its acknowledgment. *)
Definition synchronous (op : operation) : bool :=
  match op with Start | Stop => true | _ => false end.

(** The buffer an operation submits on a session. *)
Definition message (cpu : byte_order) (vwdt : virtio_wdt) (t : Z) : list Z :=
  sg_init_one cpu {| type := cpu_to_virtio16 cpu (vdev vwdt) t |}.

(** The primitives a call goes through before its first wait. *)
Fixpoint prefix {R : Type} (c : call R) : nat :=
  match c with
  | Return _ | Wait_event _ => 0
  | Add_outbuf _ k | Kick k | Cwrite_timeout _ k => S (prefix k)
  end.

(** The same for the first caller of a system. *)
Definition lead (s : system) : nat :=
  match threads s with
  | c :: _ => prefix c
  | [] => 0
  end.

(** While a returned buffer is on the queue, caller 0 is not asleep. *)
Definition acked_awake (s : system) : Prop :=
  used (ring (mach s)) ≠ [] -> asleep 0 (mach s) = false.

(** The lone synchronous call has returned, or stands at its wait, awake,
    with its buffer returned. *)
Definition acked (sg : list Z) (s : system) : Prop :=
  threads s = [Return 0] \/
  (threads s = [Wait_event (Return 0)] /\
   avail (ring (mach s)) = [] /\ used (ring (mach s)) = [sg] /\
   asleep 0 (mach s) = false).

(** * Properties *)

(** ** Interleavings *)

Lemma run_cons a sched s : run (a :: sched) s = run sched (sys_step s a).
Proof. reflexivity. Qed.

Lemma run_app sched1 sched2 s :
  run (sched1 ++ sched2) s = run sched2 (run sched1 s).
Proof. apply foldl_app. Qed.

Lemma turns_cons_self i sched : turns i (Caller i :: sched) = S (turns i sched).
Proof. unfold turns. rewrite filter_cons_True; done. Qed.

Lemma turns_cons_other i a sched :
  a ≠ Caller i -> turns i (a :: sched) = turns i sched.
Proof. intros Hne. unfold turns. rewrite filter_cons_False; done. Qed.

Lemma sys_step_other s a i :
  a ≠ Caller i -> threads (sys_step s a) !! i = threads s !! i.
Proof.
  intros Hne. destruct a as [|j]; [done|]. simpl.
  destruct (threads s !! j) as [c|] eqn:Hj; [|done].
  destruct (step_call j (mach s) c) as [[m c']|]; [|done]. simpl.
  apply list_lookup_insert_ne. congruence.
Qed.

Lemma sys_step_self s i c :
  threads s !! i = Some c ->
  threads (sys_step s (Caller i)) !! i =
  Some (match step_call i (mach s) c with
        | Some (_, c') => c'
        | None => c
        end).
Proof.
  intros Hi. simpl. rewrite Hi.
  destruct (step_call i (mach s) c) as [[m c']|]; [|done]. simpl.
  apply list_lookup_insert_eq. by eapply lookup_lt_Some.
Qed.

Lemma step_call_outcome {R} tid m (c : call R) m' c' :
  step_call tid m c = Some (m', c') -> outcome c' = outcome c.
Proof.
  destruct c; simpl; intros H; simplify_eq; try done.
  destruct (asleep tid m); [done|].
  destruct (virtqueue_get_buf (ring m)) as [[b q]|]; by simplify_eq.
Qed.

(** A call keeps its return value through every interleaving. *)
Lemma run_outcome sched : forall s i c,
  threads s !! i = Some c ->
  exists c', threads (run sched s) !! i = Some c' /\ outcome c' = outcome c.
Proof.
  induction sched as [|a sched IH]; intros s i c Hi.
  - exists c. done.
  - rewrite run_cons. destruct (decide (a = Caller i)) as [->|Hne].
    + pose proof (sys_step_self s i c Hi) as Hs.
      destruct (IH _ _ _ Hs) as (c' & Hc' & Ho). exists c'. split; [done|].
      rewrite Ho. destruct (step_call i (mach s) c) as [[m c1]|] eqn:E; [|done].
      by eapply step_call_outcome.
    + apply IH. by rewrite sys_step_other.
Qed.

Lemma step_call_waits {R} tid m (c : call R) m' c' :
  waits c = false -> step_call tid m c = Some (m', c') ->
  waits c' = false /\ S (primitives c') = primitives c.
Proof. destruct c; simpl; intros Hw H; by simplify_eq. Qed.

Lemma step_call_nonblocking {R} tid m (c : call R) :
  waits c = false -> primitives c ≠ 0%nat -> is_Some (step_call tid m c).
Proof. destruct c; simpl; intros Hw Hp; try done; eauto. Qed.

(** A call without a wait returns once it has had as many turns as it has
    primitives, whatever the remote side and the other callers do. *)
Lemma nonblocking_returns sched : forall s i c,
  threads s !! i = Some c -> waits c = false ->
  (primitives c <= turns i sched)%nat ->
  returned (run sched s) i = Some (outcome c).
Proof.
  induction sched as [|a sched IH]; intros s i c Hi Hw Hn.
  - unfold returned, run. simpl. rewrite Hi. cbn in Hn.
    destruct c; simpl in *; [done | lia ..].
  - rewrite run_cons. destruct (decide (a = Caller i)) as [->|Hne].
    + pose proof (sys_step_self s i c Hi) as Hs.
      rewrite turns_cons_self in Hn.
      destruct (step_call i (mach s) c) as [[m c1]|] eqn:E.
      * destruct (step_call_waits _ _ _ _ _ Hw E) as [Hw1 Hp1].
        rewrite <- (step_call_outcome _ _ _ _ _ E).
        apply IH; [done|done|lia].
      * destruct (decide (primitives c = 0%nat)) as [Hz|Hnz].
        -- apply IH; [done|done|lia].
        -- destruct (step_call_nonblocking i (mach s) c Hw Hnz) as [x Hx].
           congruence.
    + rewrite turns_cons_other in Hn by done.
      apply IH; [by rewrite sys_step_other|done|done].
Qed.

(** ** What the operations leave alone *)

Lemma step_call_settings {R} tid m (c : call R) m' c' :
  step_call tid m c = Some (m', c') ->
  settings (session m') = settings (session m).
Proof.
  destruct c; simpl; intros H; simplify_eq; try done.
  destruct (asleep tid m); [done|].
  destruct (virtqueue_get_buf (ring m)) as [[b q]|]; by simplify_eq.
Qed.

Lemma host_step_settings m :
  settings (session (host_step m)) = settings (session m).
Proof. unfold host_step. by destruct (vq_consume (ring m)). Qed.

Lemma sys_step_settings s a :
  settings (session (mach (sys_step s a))) = settings (session (mach s)).
Proof.
  destruct a as [|i]; simpl; [apply host_step_settings|].
  destruct (threads s !! i) as [c|]; [|done].
  destruct (step_call i (mach s) c) as [[m c']|] eqn:E; [|done].
  by eapply step_call_settings.
Qed.

Lemma run_settings sched : forall s,
  settings (session (mach (run sched s))) = settings (session (mach s)).
Proof.
  induction sched as [|a sched IH]; intros s; [done|].
  rewrite run_cons, IH. apply sys_step_settings.
Qed.

Lemma run_timeout sched s :
  timeout (session (mach (run sched s))) = timeout (session (mach s)).
Proof.
  pose proof (run_settings sched s) as H. unfold settings in H.
  by injection H.
Qed.

Lemma run_wdd sched s :
  wdd (session (mach (run sched s))) = wdd (session (mach s)).
Proof.
  pose proof (run_settings sched s) as H. unfold settings in H.
  by injection H.
Qed.

Lemma run_lock sched s :
  lock (session (mach (run sched s))) = lock (session (mach s)).
Proof.
  pose proof (run_settings sched s) as H. unfold settings in H.
  by injection H.
Qed.

(** ** The attach sequence *)

(** virtwdt_probe, run from a kernel that holds nothing: the five ways it
    can end. *)
Lemma probe_run env dev cfg :
  virtwdt_probe env dev (fresh cfg) =
  if negb (virtio_has_feature dev VIRTIO_F_VERSION_1)
  then (- ENODEV, fresh cfg)
  else if negb (config_get dev) then (- EINVAL, fresh cfg)
  else if negb (kzalloc_ok env) then (- ENOMEM, fresh cfg)
  else match find_vq_error env with
       | Some e =>
           (- ENOMEM,
            {| heap := None; priv := true; queue := None; registered := false;
               driver_ok := false; kconfig_timeout := cfg;
               trace := [Op_kzalloc; Op_kfree] |})
       | None =>
           if register_result env =? 0 then
             (0,
              {| heap := Some (configured env dev); priv := true;
                 queue := Some empty_vq; registered := true;
                 driver_ok := true; kconfig_timeout := cfg;
                 trace := [Op_kzalloc; Op_find_vq; Op_register;
                           Op_device_ready] |})
           else
             (register_result env,
              {| heap := None; priv := true; queue := None;
                 registered := false; driver_ok := false;
                 kconfig_timeout := cfg;
                 trace := [Op_kzalloc; Op_find_vq; Op_reset; Op_del_vqs;
                           Op_kfree] |})
       end.
Proof.
  unfold virtwdt_probe, configured, kzalloc, virtwdt_init_vq,
    virtio_find_single_vq, watchdog_register_device, store_wdd,
    watchdog_init_timeout.
  destruct (virtio_has_feature dev VIRTIO_F_VERSION_1); [|done].
  destruct (config_get dev); [|done].
  destruct (kzalloc_ok env); [|done].
  destruct (find_vq_error env) as [e|]; [done|].
  destruct (param_nowayout env); destruct (u32 (param_timeout env) =? 0);
    destruct (register_result env =? 0) eqn:E;
    unfold mbind, mret, kernel_bind, kernel_ret; cbn; rewrite ?E; reflexivity.
Qed.

(** A successful probe leaves exactly the configured session on an empty
    queue. *)
Lemma probe_success env dev cfg k m :
  virtwdt_probe env dev (fresh cfg) = (0, k) ->
  attached k = Some m ->
  virtio_has_feature dev VIRTIO_F_VERSION_1 = true /\
  config_get dev = true /\
  m = {| session := configured env dev; ring := empty_vq;
         config_timeout := cfg |}.
Proof.
  rewrite probe_run.
  destruct (virtio_has_feature dev VIRTIO_F_VERSION_1); [|done].
  destruct (config_get dev); [|done].
  destruct (kzalloc_ok env); [|done].
  destruct (find_vq_error env) as [e|]; [done|].
  destruct (register_result env =? 0) eqn:E; simpl.
  - intros [= <-]. simpl. by intros [= <-].
  - intros [= H]. rewrite H in E. done.
Qed.

Example wdt_machine_attached :
  virtwdt_probe plain_env wdt_device (fresh 0)
  = (0, {| heap := Some (session wdt_machine); priv := true;
           queue := Some empty_vq; registered := true; driver_ok := true;
           kconfig_timeout := 0;
           trace := [Op_kzalloc; Op_find_vq; Op_register; Op_device_ready] |}).
Proof. reflexivity. Qed.

(** C7. An attach that finds the version-1 feature or the config access
    missing is refused with nothing acquired: the kernel state is the one
    probe started from.  Every failed attach ends with the session block
    freed, no queue, nothing registered and no machine for callers to run
    on; the resource operations it went through are none at all, or
    kzalloc-kfree, or kzalloc, queue set-up, reset, queue deletion, kfree,
    so a queue that was created is deleted before the block is freed. *)
Theorem probe_failure_releases env dev cfg err k :
  virtwdt_probe env dev (fresh cfg) = (err, k) ->
  (virtio_has_feature dev VIRTIO_F_VERSION_1 = false ->
   err = - ENODEV /\ k = fresh cfg) /\
  (config_get dev = false ->
   (err = - ENODEV \/ err = - EINVAL) /\ k = fresh cfg) /\
  (err ≠ 0 ->
   heap k = None /\ queue k = None /\ registered k = false /\
   driver_ok k = false /\ attached k = None /\
   (trace k = [] \/
    trace k = [Op_kzalloc; Op_kfree] \/
    trace k = [Op_kzalloc; Op_find_vq; Op_reset; Op_del_vqs; Op_kfree])).
Proof.
  rewrite probe_run.
  destruct (virtio_has_feature dev VIRTIO_F_VERSION_1);
    [|intros [= <- <-]; simpl; naive_solver].
  destruct (config_get dev); [|intros [= <- <-]; simpl; naive_solver].
  destruct (kzalloc_ok env); [|intros [= <- <-]; simpl; naive_solver].
  destruct (find_vq_error env) as [e|];
    [intros [= <- <-]; simpl; naive_solver|].
  destruct (register_result env =? 0) eqn:E; intros [= <- <-]; simpl;
    naive_solver.
Qed.

(** Detaching undoes the attach in the same order as the late error path:
    reset, queue deletion, then the session block. *)
Lemma remove_releases k :
  let k' := (virtwdt_remove k).2 in
  heap k' = None /\ queue k' = None /\ attached k' = None /\
  trace k' = trace k ++ [Op_reset; Op_del_vqs; Op_kfree].
Proof.
  unfold virtwdt_remove, mbind, kernel_bind.
  cbn -[attached]. split; [done|]. split; [done|]. split.
  - unfold attached. simpl. by destruct (registered k).
  - by rewrite <- !app_assoc.
Qed.

Lemma probe_failure_releases_witness :
  heap (virtwdt_probe busy_env wdt_device (fresh 0)).2 = None /\
  queue (virtwdt_probe busy_env wdt_device (fresh 0)).2 = None /\
  trace (virtwdt_probe busy_env wdt_device (fresh 0)).2
  = [Op_kzalloc; Op_find_vq; Op_reset; Op_del_vqs; Op_kfree].
Proof.
  destruct (probe_failure_releases busy_env wdt_device 0 (-16)
              (virtwdt_probe busy_env wdt_device (fresh 0)).2 eq_refl)
    as (_ & _ & H).
  destruct H as (Hh & Hq & _); [discriminate|].
  split; [exact Hh|]. split; [exact Hq|]. reflexivity.
Defined.

(** C10. When the queue cannot be set up, virtwdt_init_vq answers -ENOMEM
    (-12) whatever error the failed handle carries: the handle kept in
    vwdt->vq holds that error, the return value does not depend on it, and
    probe passes -ENOMEM on. *)
Theorem init_vq_failure_is_enomem env e k :
  find_vq_error env = Some e ->
  (virtwdt_init_vq env k).1 = -12 /\
  - ENOMEM = -12 /\
  vq <$> heap (virtwdt_init_vq env k).2 = (λ _, VqErr e) <$> heap k /\
  PTR_ERR (VqErr e) = e /\
  (forall dev cfg,
     virtio_has_feature dev VIRTIO_F_VERSION_1 = true ->
     config_get dev = true ->
     kzalloc_ok env = true ->
     (virtwdt_probe env dev (fresh cfg)).1 = -12).
Proof.
  intros He. split; [|split; [done|split; [|split; [done|]]]].
  - unfold virtwdt_init_vq, virtio_find_single_vq, mbind, kernel_bind.
    by rewrite He.
  - unfold virtwdt_init_vq, virtio_find_single_vq, mbind, kernel_bind.
    rewrite He. simpl. by destruct (heap k).
  - intros dev cfg Hf Hg Hk. rewrite probe_run, Hf, Hg, Hk, He. done.
Qed.

Lemma init_vq_failure_is_enomem_witness :
  (virtwdt_init_vq no_queue_env (fresh 0)).1 = -12 /\
  (virtwdt_probe no_queue_env wdt_device (fresh 0)).1 = -12.
Proof.
  destruct (init_vq_failure_is_enomem no_queue_env (-28) (fresh 0) eq_refl)
    as (H1 & _ & _ & _ & H2).
  split; [exact H1|].
  apply (H2 wdt_device 0); reflexivity.
Defined.

(** ** The timeout *)

Lemma configured_in_range env dev :
  timeout (configured env dev) = 30 /\
  1 <= wdd_timeout (wdd (configured env dev)) <= 600 /\
  (u32 (param_timeout env) = 0 ->
   wdd_timeout (wdd (configured env dev)) = 30) /\
  lock (configured env dev) = false.
Proof.
  unfold configured, VIRTIO_WATCHDOG_HEARTBEAT_TIMEOUT,
    VIRTIO_WATCHDOG_HEARTBEAT_TIMEOUT_MIN,
    VIRTIO_WATCHDOG_HEARTBEAT_TIMEOUT_MAX. simpl.
  destruct (u32 (param_timeout env) =? 0) eqn:E.
  - repeat split; lia.
  - apply Z.eqb_neq in E. repeat split; lia.
Qed.

(** C6. After a successful probe the session's timeout is 30 and stays 30,
    and the watchdog core's copy (wdd.timeout) lies within [1, 600] and is
    30 when no timeout parameter was given, at every point of every
    interleaving of start, stop, ping and set_timeout calls with the remote
    side. *)
Theorem timeout_invariant cpu env dev cfg k m ops sched :
  virtwdt_probe env dev (fresh cfg) = (0, k) ->
  attached k = Some m ->
  let s := run sched {| mach := m;
                        threads := virtwdt_ops cpu (session m) <$> ops |} in
  timeout (session (mach s)) = VIRTIO_WATCHDOG_HEARTBEAT_TIMEOUT /\
  VIRTIO_WATCHDOG_HEARTBEAT_TIMEOUT_MIN <= timeout (session (mach s))
    <= VIRTIO_WATCHDOG_HEARTBEAT_TIMEOUT_MAX /\
  VIRTIO_WATCHDOG_HEARTBEAT_TIMEOUT_MIN <= wdd_timeout (wdd (session (mach s)))
    <= VIRTIO_WATCHDOG_HEARTBEAT_TIMEOUT_MAX /\
  (u32 (param_timeout env) = 0 ->
   wdd_timeout (wdd (session (mach s))) = VIRTIO_WATCHDOG_HEARTBEAT_TIMEOUT).
Proof.
  intros Hp Ha s. subst s.
  destruct (probe_success _ _ _ _ _ Hp Ha) as (_ & _ & ->).
  rewrite run_timeout, run_wdd. cbn [mach session].
  destruct (configured_in_range env dev) as (H1 & H2 & H3 & _).
  unfold VIRTIO_WATCHDOG_HEARTBEAT_TIMEOUT,
    VIRTIO_WATCHDOG_HEARTBEAT_TIMEOUT_MIN,
    VIRTIO_WATCHDOG_HEARTBEAT_TIMEOUT_MAX.
  repeat split; lia.
Qed.

Lemma timeout_invariant_witness :
  let s := run [Caller 0; Caller 1; Caller 0; Host; Caller 2; Caller 1]
             {| mach := wdt_machine;
                threads := virtwdt_ops BigEndian (session wdt_machine)
                           <$> [Start; Set_timeout 900; Ping] |} in
  timeout (session (mach s)) = 30 /\
  1 <= wdd_timeout (wdd (session (mach s))) <= 600.
Proof.
  destruct (timeout_invariant BigEndian plain_env wdt_device 0
              (virtwdt_probe plain_env wdt_device (fresh 0)).2 wdt_machine
              [Start; Set_timeout 900; Ping]
              [Caller 0; Caller 1; Caller 0; Host; Caller 2; Caller 1]
              eq_refl eq_refl)
    as (H1 & _ & H2 & _).
  split; [exact H1 | exact H2].
Defined.

(** ** set_timeout *)

Lemma set_timeout_step vwdt v tid m :
  step_call tid m (virtwdt_set_timeout vwdt v)
  = Some (set_config_timeout (u32 v) m, Return 0).
Proof. reflexivity. Qed.

(** Against C5 as written: set_timeout(900) on the attached machine puts
    900, which is outside [1, 600], into the device's configuration space
    and returns 0. *)
Lemma set_timeout_900_committed :
  exists m',
    step_call 0 wdt_machine (virtwdt_set_timeout (session wdt_machine) 900)
    = Some (m', Return 0) /\
    config_timeout m' = 900 /\
    ~ (VIRTIO_WATCHDOG_HEARTBEAT_TIMEOUT_MIN <= config_timeout m'
       <= VIRTIO_WATCHDOG_HEARTBEAT_TIMEOUT_MAX).
Proof.
  eexists. split; [reflexivity|]. split; [reflexivity|].
  change (~ (1 <= 900 <= 600)). lia.
Qed.

(** C5, amended. set_timeout commits the value it is given, as an unsigned
    32-bit number and without a range check of its own, so what reaches the
    device lies within [1, 600] exactly when the caller's value does; the
    bounds 1 and 600 are what the session advertises to its caller in
    wdd.min_timeout and wdd.max_timeout.  The default resolved at attach
    time is the timeout parameter clamped to [1, 600], or 30 when none (0)
    is given, and so lies within [1, 600]. *)
Theorem set_timeout_commits_its_argument env dev cfg k m v tid :
  virtwdt_probe env dev (fresh cfg) = (0, k) ->
  attached k = Some m ->
  (exists m',
     step_call tid m (virtwdt_set_timeout (session m) v)
     = Some (m', Return 0) /\
     config_timeout m' = u32 v /\
     (1 <= config_timeout m' <= 600 <-> 1 <= u32 v <= 600)) /\
  (1 <= v <= 600 -> u32 v = v) /\
  min_timeout (wdd (session m)) = 1 /\
  max_timeout (wdd (session m)) = 600 /\
  wdd_timeout (wdd (session m))
  = (if u32 (param_timeout env) =? 0 then 30
     else Z.max 1 (Z.min 600 (u32 (param_timeout env)))) /\
  1 <= wdd_timeout (wdd (session m)) <= 600.
Proof.
  intros Hp Ha.
  destruct (probe_success _ _ _ _ _ Hp Ha) as (_ & _ & ->).
  split; [|split; [|split; [done|split; [done|split]]]].
  - eexists. split; [apply set_timeout_step|]. split; [reflexivity|].
    simpl. reflexivity.
  - intros Hv. unfold u32. apply Z.mod_small. lia.
  - reflexivity.
  - apply configured_in_range.
Qed.

Lemma set_timeout_commits_its_argument_witness :
  (exists m',
     step_call 0 wdt_machine (virtwdt_set_timeout (session wdt_machine) 45)
     = Some (m', Return 0) /\
     config_timeout m' = u32 45 /\
     (1 <= config_timeout m' <= 600 <-> 1 <= u32 45 <= 600)) /\
  wdd_timeout (wdd (session wdt_machine)) = 30.
Proof.
  destruct (set_timeout_commits_its_argument plain_env wdt_device 0
              (virtwdt_probe plain_env wdt_device (fresh 0)).2
              wdt_machine 45 0%nat eq_refl eq_refl)
    as (H1 & _ & _ & _ & H2 & _).
  split; [exact H1 | exact H2].
Defined.

(** Against C4 as written: after set_timeout(45) on the attached machine
    the device's configuration space holds 45, while the session's timeout
    and the watchdog core's copy are still 30, and the lock is not held. *)
Lemma set_timeout_leaves_cached_timeout :
  exists m',
    step_call 0 wdt_machine (virtwdt_set_timeout (session wdt_machine) 45)
    = Some (m', Return 0) /\
    config_timeout m' = 45 /\
    timeout (session m') = 30 /\
    wdd_timeout (wdd (session m')) = 30 /\
    timeout (session m') ≠ 45 /\
    lock (session m') = false.
Proof.
  eexists. split; [reflexivity|]. repeat split. discriminate.
Qed.

(** C4, amended. set_timeout submits no buffer; its single step writes the
    new value to the timeout field of the device's configuration space and
    returns 0, leaving the queue and every field of the session, its timeout
    and its lock among them, as they were; this one step is never
    blocked. *)
Theorem set_timeout_writes_config_only vwdt v tid m :
  submissions (virtwdt_set_timeout vwdt v) = [] /\
  waits (virtwdt_set_timeout vwdt v) = false /\
  exists m',
    step_call tid m (virtwdt_set_timeout vwdt v) = Some (m', Return 0) /\
    config_timeout m' = u32 v /\
    ring m' = ring m /\
    session m' = session m.
Proof.
  split; [reflexivity|]. split; [reflexivity|].
  eexists. split; [apply set_timeout_step|]. done.
Qed.

(** ** The wire format *)

Lemma swab16_low x : Z.land (swab16 x) 255 = Z.land (Z.shiftr x 8) 255.
Proof.
  unfold swab16. change 255 with (Z.ones 8).
  apply Z.bits_inj'. intros n Hn.
  rewrite !Z.land_spec, Z.lor_spec, !Z.land_spec, Z.shiftl_spec by lia.
  destruct (Z.ltb_spec n 8).
  - rewrite (Z.testbit_neg_r _ (n - 8)) by lia. simpl.
    rewrite Z.ones_spec_low by lia. by rewrite andb_true_r.
  - rewrite Z.ones_spec_high by lia. by rewrite !andb_false_r.
Qed.

Lemma swab16_high x : Z.land (Z.shiftr (swab16 x) 8) 255 = Z.land x 255.
Proof.
  unfold swab16. change 255 with (Z.ones 8).
  apply Z.bits_inj'. intros n Hn.
  rewrite !Z.land_spec, Z.shiftr_spec, Z.lor_spec, !Z.land_spec,
    Z.shiftl_spec, Z.shiftr_spec by lia.
  replace (n + 8 - 8) with n by lia.
  rewrite (Z.ones_spec_high 8 (n + 8)) by lia. rewrite Z.land_spec.
  by destruct (Z.testbit x n), (Z.testbit (Z.ones 8) n),
       (Z.testbit x (n + 8 + 8)).
Qed.

(** On a version-1 device the bytes of the converted tag are the
    little-endian ones on either kind of host. *)
Lemma mem16_virtio16 cpu dev t :
  virtio_has_feature dev VIRTIO_F_VERSION_1 = true ->
  mem16 cpu (cpu_to_virtio16 cpu dev t) = le16_bytes t.
Proof.
  intros Hf. unfold cpu_to_virtio16, virtio_is_little_endian. rewrite Hf.
  simpl. destruct cpu; simpl; [done|].
  unfold le16_bytes. by rewrite swab16_low, swab16_high.
Qed.

(** Without the version-1 feature the bytes follow the host. *)
Example legacy_tag_follows_host :
  let legacy := {| features := 0; config_get := true |} in
  mem16 BigEndian (cpu_to_virtio16 BigEndian legacy VIRTIO_WATCHDOG_ENABLE)
  = [0; 1] /\
  mem16 LittleEndian
    (cpu_to_virtio16 LittleEndian legacy VIRTIO_WATCHDOG_ENABLE)
  = [1; 0].
Proof. split; reflexivity. Qed.

(** C8. On a session that probe has attached, the one buffer that start,
    stop or ping submits is two bytes long and holds the event tag least
    significant byte first, whether the kernel is built little-endian or
    big-endian: probe has checked the version-1 feature, under which the
    virtio conversion is to little-endian. *)
Theorem event_tag_is_little_endian cpu env dev cfg k m op t :
  virtwdt_probe env dev (fresh cfg) = (0, k) ->
  attached k = Some m ->
  event_type op = Some t ->
  submissions (virtwdt_ops cpu (session m) op) = [le16_bytes t] /\
  le16_bytes t = [t; 0] /\
  length (le16_bytes t) = 2%nat.
Proof.
  intros Hp Ha Ht.
  destruct (probe_success _ _ _ _ _ Hp Ha) as (Hf & _ & ->).
  cbn [session].
  split; [|destruct op; simpl in Ht; simplify_eq; split; reflexivity].
  destruct op; simpl in Ht; simplify_eq; cbn [virtwdt_ops];
    unfold virtwdt_ping, virtwdt_start, virtwdt_stop, send_event, sg_init_one;
    cbn [type]; rewrite (mem16_virtio16 cpu dev _ Hf); reflexivity.
Qed.

Lemma event_tag_is_little_endian_witness :
  submissions (virtwdt_ops BigEndian (session wdt_machine) Stop) = [[2; 0]] /\
  submissions (virtwdt_ops LittleEndian (session wdt_machine) Stop)
  = [[2; 0]].
Proof.
  destruct (event_tag_is_little_endian BigEndian plain_env wdt_device 0
              (virtwdt_probe plain_env wdt_device (fresh 0)).2
              wdt_machine Stop 2 eq_refl eq_refl eq_refl)
    as (H1 & _).
  destruct (event_tag_is_little_endian LittleEndian plain_env wdt_device 0
              (virtwdt_probe plain_env wdt_device (fresh 0)).2
              wdt_machine Stop 2 eq_refl eq_refl eq_refl)
    as (H2 & _).
  split; [exact H1 | exact H2].
Defined.

(** ** The operations *)

(** The heartbeat tag is 0, so ping's buffer is two zero bytes on every
    host and every device. *)
Lemma ping_code cpu vwdt :
  virtwdt_ping cpu vwdt
  = Add_outbuf (le16_bytes VIRTIO_WATCHDOG_HEARTBEAT) (Kick (Return 0)).
Proof.
  unfold virtwdt_ping, send_event, cpu_to_virtio16.
  destruct (virtio_is_little_endian cpu (vdev vwdt)), cpu; reflexivity.
Qed.

Lemma ops_outcome cpu vwdt op : outcome (virtwdt_ops cpu vwdt op) = 0.
Proof. destruct op; reflexivity. Qed.



(** ** The queue under several calls *)

(** A caller gets past its wait only by taking a returned buffer off the
    queue; with none returned it stays at the wait, asleep. *)
Lemma wait_needs_returned_buffer {R} tid m (k : call R) m' c' :
  step_call tid m (Wait_event k) = Some (m', c') ->
  (used (ring m) = [] ->
   c' = Wait_event k /\ ring m' = ring m /\ asleep tid m' = true) /\
  (used (ring m) ≠ [] ->
   c' = k /\ avail (ring m') = avail (ring m) /\
   exists b, used (ring m) = b :: used (ring m')).
Proof.
  simpl. destruct (asleep tid m) eqn:Hs; [done|].
  unfold virtqueue_get_buf. destruct (used (ring m)) as [|b u] eqn:Hu.
  - intros [= <- <-]. split; [|done]. intros _. split; [done|]. split; [done|].
    unfold asleep. simpl. apply bool_decide_eq_true. by left.
  - intros [= <- <-]. split; [done|]. intros _. split; [done|].
    split; [done|]. by exists b.
Qed.

(** C1. The code does not keep the queue to one message.  Two pings one
    after the other, with the remote side idle, leave two heartbeat
    messages unacknowledged, both calls having returned 0; and a ping
    issued while start is waiting for its acknowledgment puts a second
    message next to the ENABLE one.  The lock is held at neither point. *)
Theorem two_messages_outstanding :
  let vwdt := session wdt_machine in
  let s := run [Caller 0; Caller 0; Caller 1; Caller 1]
             {| mach := wdt_machine;
                threads := [virtwdt_ping LittleEndian vwdt;
                            virtwdt_ping LittleEndian vwdt] |} in
  let s' := run [Caller 0; Caller 0; Caller 0; Caller 1; Caller 1]
              {| mach := wdt_machine;
                 threads := [virtwdt_start LittleEndian vwdt;
                             virtwdt_ping LittleEndian vwdt] |} in
  returned s 0 = Some 0 /\ returned s 1 = Some 0 /\
  avail (ring (mach s)) = [[0; 0]; [0; 0]] /\
  outstanding (ring (mach s)) = 2%nat /\
  lock (session (mach s)) = false /\
  returned s' 0 = None /\ returned s' 1 = Some 0 /\
  avail (ring (mach s')) = [[1; 0]; [0; 0]] /\
  outstanding (ring (mach s')) = 2%nat /\
  lock (session (mach s')) = false.
Proof. vm_compute. repeat split. Qed.

(** C2. stop can return before its own buffer has been consumed.  In the
    ordinary life of a watchdog (start, acknowledged; ping, acknowledged
    but never reclaimed by ping; stop) the wait of stop is satisfied at once
    by the heartbeat buffer that ping left on the queue, and stop returns 0
    while its DISABLE message is still unacknowledged.  The same holds for a
    start that follows a ping. *)
Theorem stop_returns_on_stale_buffer :
  let vwdt := session wdt_machine in
  let before := run [Caller 0; Caller 0; Host; Caller 0;
                     Caller 1; Caller 1; Host;
                     Caller 2; Caller 2]
                  {| mach := wdt_machine;
                     threads := [virtwdt_start LittleEndian vwdt;
                                 virtwdt_ping LittleEndian vwdt;
                                 virtwdt_stop LittleEndian vwdt] |} in
  let s := sys_step before (Caller 2) in
  let s' := run [Caller 0; Caller 0; Host; Caller 1; Caller 1; Caller 1]
              {| mach := wdt_machine;
                 threads := [virtwdt_ping LittleEndian vwdt;
                             virtwdt_start LittleEndian vwdt] |} in
  returned before 0 = Some 0 /\ returned before 1 = Some 0 /\
  returned before 2 = None /\
  used (ring (mach before)) = [le16_bytes VIRTIO_WATCHDOG_HEARTBEAT] /\
  avail (ring (mach before)) = [le16_bytes VIRTIO_WATCHDOG_DISABLE] /\
  returned s 2 = Some 0 /\
  avail (ring (mach s)) = [le16_bytes VIRTIO_WATCHDOG_DISABLE] /\
  used (ring (mach s)) = [] /\
  returned s' 1 = Some 0 /\
  avail (ring (mach s')) = [le16_bytes VIRTIO_WATCHDOG_ENABLE].
Proof. vm_compute. repeat split. Qed.

(** ** A synchronous call on an idle queue *)

Lemma start_code cpu vwdt :
  virtwdt_start cpu vwdt
  = sync_code (mem16 cpu (cpu_to_virtio16 cpu (vdev vwdt)
                            VIRTIO_WATCHDOG_ENABLE)).
Proof. reflexivity. Qed.

Lemma stop_code cpu vwdt :
  virtwdt_stop cpu vwdt
  = sync_code (mem16 cpu (cpu_to_virtio16 cpu (vdev vwdt)
                            VIRTIO_WATCHDOG_DISABLE)).
Proof. reflexivity. Qed.

Lemma sync_state_step sg s a : sync_state sg s -> sync_state sg (sys_step s a).
Proof.
  intros Hs. destruct a as [|[|i]].
  - (* the remote side moves *)
    destruct Hs as [m Ha Hu|m Hf|m Hf|m Ha Hu]; simpl; unfold host_step,
      vq_consume.
    + rewrite Ha. by constructor.
    + destruct Hf as [[Ha Hu]|[Ha Hu]]; rewrite Ha.
      * apply At_kick. right. simpl. by rewrite Hu.
      * apply At_kick. by right.
    + destruct Hf as [[Ha Hu]|[Ha Hu]]; rewrite Ha.
      * apply At_wait. right. simpl. by rewrite Hu.
      * apply At_wait. by right.
    + rewrite Ha. by constructor.
  - (* the caller moves *)
    destruct Hs as [m Ha Hu|m Hf|m Hf|m Ha Hu]; simpl.
    + apply At_kick. left. simpl. by rewrite Ha, Hu.
    + apply At_wait. by destruct Hf as [[Ha Hu]|[Ha Hu]]; [left|right].
    + destruct (asleep 0 m); [by apply At_wait|].
      unfold virtqueue_get_buf.
      destruct Hf as [[Ha Hu]|[Ha Hu]]; rewrite Hu; simpl.
      * apply At_wait. left. by simpl.
      * apply At_return; simpl; [exact Ha|reflexivity].
    + by apply At_return.
  - (* there is no other caller *)
    destruct Hs; simpl;
      [apply At_add|apply At_kick|apply At_wait|apply At_return]; done.
Qed.

Lemma sync_state_run sg sched : forall s,
  sync_state sg s -> sync_state sg (run sched s).
Proof.
  induction sched as [|a sched IH]; intros s Hs; [done|].
  rewrite run_cons. by apply IH, sync_state_step.
Qed.

(** On a queue with nothing on it, start and stop do what the spec says: in
    every interleaving with the remote side, the call has returned only if
    its buffer has been consumed and taken back. *)
Lemma sync_call_waits_for_its_buffer sg m sched :
  avail (ring m) = [] -> used (ring m) = [] ->
  let s := run sched {| mach := m; threads := [sync_code sg] |} in
  forall r, returned s 0 = Some r ->
            r = 0 /\ avail (ring (mach s)) = [] /\ used (ring (mach s)) = [].
Proof.
  intros Ha Hu s r.
  pose proof (sync_state_run sg sched _ (At_add sg m Ha Hu)) as Hs.
  fold s in Hs. unfold returned.
  destruct Hs; simpl; intros; by simplify_eq.
Qed.

(** The wait has no timeout: while the remote side does not move, the call
    does not return. *)
Lemma sync_call_never_times_out sg sched : forall m c,
  c = sync_code sg \/ c = Kick (Wait_event (Return 0))
  \/ c = Wait_event (Return 0) ->
  used (ring m) = [] ->
  Host ∉ sched ->
  returned (run sched {| mach := m; threads := [c] |}) 0 = None.
Proof.
  induction sched as [|a sched IH]; intros m c Hc Hu Hh.
  - unfold returned. simpl. by destruct Hc as [->|[->| ->]].
  - rewrite run_cons.
    apply not_elem_of_cons in Hh as [Hne Hh].
    destruct a as [|[|i]]; [done| |].
    + destruct Hc as [->|[->| ->]]; simpl.
      * apply IH; [by right; left|done|done].
      * apply IH; [by right; right|done|done].
      * destruct (asleep 0 m); [by apply IH; [right; right|..]|].
        unfold virtqueue_get_buf. rewrite Hu. simpl.
        by apply IH; [right; right|..].
    + simpl. by apply IH.
Qed.

(** Against C9 as written: start on the attached machine, with the remote
    side handing nothing back, has not returned after its three turns; it is
    asleep at its wait, a further turn changes nothing at all, and after a
    thousand more turns it still has not returned. *)
Lemma start_blocked_by_silent_transport :
  let s := run [Caller 0; Caller 0; Caller 0]
             {| mach := wdt_machine;
                threads := [virtwdt_ops LittleEndian (session wdt_machine)
                              Start] |} in
  returned s 0 = None /\
  asleep 0 (mach s) = true /\
  sys_step s (Caller 0) = s /\
  returned (run (replicate 1000 (Caller 0)) s) 0 = None.
Proof. vm_compute. repeat split. Qed.

(** C9, amended. No control operation ever reports a failure: whatever
    operation is called, in whatever interleaving with the remote side and
    with other callers, a caller that has returned has returned 0.  ping
    and set_timeout, which have no wait in them, do return 0 after at most
    two turns whatever the remote side does.  start and stop are the two
    with a wait: running alone they return 0 after submit, kick, one move
    of the remote side and one more turn, and, called with no returned
    buffer on the queue, they do not return for as long as the remote side
    does not move. *)
Theorem control_operations_return_zero cpu vwdt op :
  (forall s i sched r,
     threads s !! i = Some (virtwdt_ops cpu vwdt op) ->
     returned (run sched s) i = Some r ->
     r = 0) /\
  (forall m,
     returned
       (run [Caller 0; Caller 0; Host; Caller 0]
          {| mach := m; threads := [virtwdt_ops cpu vwdt op] |})
       0
     = Some 0) /\
  (waits (virtwdt_ops cpu vwdt op) = false ->
   forall s i sched,
     threads s !! i = Some (virtwdt_ops cpu vwdt op) ->
     (2 <= turns i sched)%nat ->
     returned (run sched s) i = Some 0) /\
  (waits (virtwdt_ops cpu vwdt op)
   = match op with Start | Stop => true | _ => false end) /\
  (waits (virtwdt_ops cpu vwdt op) = true ->
   forall m sched,
     used (ring m) = [] ->
     Host ∉ sched ->
     returned
       (run sched {| mach := m; threads := [virtwdt_ops cpu vwdt op] |}) 0
     = None).
Proof.
  split; [|split; [|split; [|split]]].
  - intros s i sched r Hi Hr.
    destruct (run_outcome sched s i _ Hi) as (c' & Hc' & Ho).
    rewrite ops_outcome in Ho. unfold returned in Hr. rewrite Hc' in Hr.
    destruct c'; simplify_eq. exact Ho.
  - intros m. destruct m as [w [a u n] c].
    destruct op; cbn [virtwdt_ops].
    + rewrite ping_code. reflexivity.
    + destruct a, u; reflexivity.
    + destruct a, u; reflexivity.
    + reflexivity.
  - intros Hw s i sched Hi Hn.
    rewrite <- (ops_outcome cpu vwdt op).
    apply nonblocking_returns; [done|done|].
    destruct op; simpl in *; try done; lia.
  - destruct op; reflexivity.
  - intros Hw m sched Hu Hn.
    destruct op; cbn [virtwdt_ops] in *;
      [by rewrite ping_code in Hw| | |done].
    + rewrite start_code.
      eapply sync_call_never_times_out; [left; reflexivity|done|done].
    + rewrite stop_code.
      eapply sync_call_never_times_out; [left; reflexivity|done|done].
Qed.

Lemma control_operations_return_zero_witness :
  let s := {| mach := wdt_machine;
              threads := [virtwdt_stop LittleEndian (session wdt_machine);
                          virtwdt_set_timeout (session wdt_machine) 0] |} in
  returned
    (run [Caller 1; Caller 0; Caller 0; Caller 1; Host; Caller 0] s) 0
  = Some 0 /\
  returned (run [Caller 1; Caller 1] s) 1 = Some 0 /\
  returned
    (run [Caller 0; Caller 0; Caller 0; Caller 0]
       {| mach := wdt_machine;
          threads := [virtwdt_ops LittleEndian (session wdt_machine)
                        Stop] |})
    0
  = None.
Proof.
  intros s.
  destruct (control_operations_return_zero LittleEndian
              (session wdt_machine) Stop) as (H & _ & _ & _ & Hb).
  destruct (control_operations_return_zero LittleEndian
              (session wdt_machine) (Set_timeout 0)) as (_ & _ & H' & _).
  split; [|split].
  - destruct (returned
                (run [Caller 1; Caller 0; Caller 0; Caller 1; Host; Caller 0]
                   s) 0) as [r|] eqn:Hr.
    + f_equal. apply (H s 0%nat _ r eq_refl Hr).
    + vm_compute in Hr. discriminate Hr.
  - apply H'; [reflexivity | reflexivity | vm_compute; lia].
  - apply Hb; [reflexivity | reflexivity |].
    intros Hin. repeat (apply elem_of_cons in Hin as [Hin|Hin];
                        [discriminate Hin|]).
    by apply elem_of_nil in Hin.
Defined.

(** * Further properties of the driver *)

(** ** Quantities the interleavings conserve *)

Lemma total_insert w (l : list (call Z)) : forall i x y,
  l !! i = Some x -> total w (<[i := y]> l) = total w l - w x + w y.
Proof.
  induction l as [|c l IH]; intros i x y Hi; [done|].
  destruct i as [|i]; simpl in *.
  - simplify_eq. lia.
  - rewrite (IH i x y Hi). lia.
Qed.

Section Conserved.

Variable mu : machine -> Z.
Variable w : call Z -> Z.
Hypothesis step_conserves : forall tid m c m' c',
  step_call tid m c = Some (m', c') -> mu m' + w c' = mu m + w c.
Hypothesis host_conserves : forall m, mu (host_step m) = mu m.

Lemma sys_step_conserved s a :
  mu (mach (sys_step s a)) + total w (threads (sys_step s a))
  = mu (mach s) + total w (threads s).
Proof using step_conserves host_conserves.
  destruct a as [|i]; simpl; [by rewrite host_conserves|].
  destruct (threads s !! i) as [c|] eqn:Hi; [|done].
  destruct (step_call i (mach s) c) as [[m c']|] eqn:E; [|done]. simpl.
  rewrite (total_insert w _ i c c' Hi).
  pose proof (step_conserves _ _ _ _ _ E). lia.
Qed.

Lemma run_conserved sched : forall s,
  mu (mach (run sched s)) + total w (threads (run sched s))
  = mu (mach s) + total w (threads s).
Proof using step_conserves host_conserves.
  induction sched as [|a sched IH]; intros s; [done|].
  rewrite run_cons, IH. apply sys_step_conserved.
Qed.

End Conserved.

Lemma step_call_debt tid m (c : call Z) m' c' :
  step_call tid m c = Some (m', c') ->
  buffers (ring m') + debt c' = buffers (ring m) + debt c.
Proof.
  unfold buffers, debt.
  destruct c; simpl; intros H; simplify_eq; simpl; try lia.
  - rewrite length_app. simpl. lia.
  - destruct (asleep tid m); [done|]. unfold virtqueue_get_buf in H.
    destruct (used (ring m)) as [|b u] eqn:Hu; simplify_eq; simpl;
      rewrite ?Hu; simpl; lia.
Qed.

Lemma host_step_buffers m : buffers (ring (host_step m)) = buffers (ring m).
Proof.
  unfold host_step, vq_consume, buffers.
  destruct (avail (ring m)) as [|b a] eqn:Ha; simpl; [by rewrite Ha|].
  rewrite length_app. simpl. lia.
Qed.

Lemma step_call_kicks tid m (c : call Z) m' c' :
  step_call tid m c = Some (m', c') ->
  Z.of_nat (kicks (ring m')) + Z.of_nat (notifications c')
  = Z.of_nat (kicks (ring m)) + Z.of_nat (notifications c).
Proof.
  destruct c; simpl; intros H; simplify_eq; simpl; try lia.
  destruct (asleep tid m); [done|]. unfold virtqueue_get_buf in H.
  destruct (used (ring m)) as [|b u]; simplify_eq; simpl; lia.
Qed.

Lemma host_step_kicks m :
  Z.of_nat (kicks (ring (host_step m))) = Z.of_nat (kicks (ring m)).
Proof.
  unfold host_step, vq_consume.
  by destruct (avail (ring m)) as [|b a].
Qed.

Lemma all_returned_total s (w : call Z -> Z) :
  (forall r, w (Return r) = 0) ->
  all_returned s = true -> total w (threads s) = 0.
Proof.
  intros Hw. unfold all_returned.
  induction (threads s) as [|c l IH]; simpl; [done|].
  intros [Hc Hl]%andb_true_iff. rewrite (IH Hl).
  destruct c; try done. rewrite Hw. lia.
Qed.

Lemma ops_debt cpu vwdt ops :
  total debt (virtwdt_ops cpu vwdt <$> ops)
  = Z.of_nat (length (filter is_ping ops)).
Proof.
  induction ops as [|op ops IH]; [done|].
  rewrite fmap_cons. simpl. rewrite IH. rewrite filter_cons.
  destruct op; simpl; unfold debt; simpl; lia.
Qed.

Lemma ops_notifications cpu vwdt ops :
  total (λ c, Z.of_nat (notifications c)) (virtwdt_ops cpu vwdt <$> ops)
  = Z.of_nat (length (filter sends ops)).
Proof.
  induction ops as [|op ops IH]; [done|].
  rewrite fmap_cons. simpl. rewrite IH. rewrite filter_cons.
  destruct op; simpl; lia.
Qed.

(** X8. A count, with every submission succeeding.  Through every
    interleaving of watchdog calls with the remote side, the number of
    buffers on the queue (submitted or returned, not yet taken back) plus
    what the calls in progress still owe (submissions to come less reclaims
    to come) equals the number at the start plus the number of pings.  So
    once every call has returned, the queue holds as many buffers more than
    at the start as there were pings: start and stop each take one buffer
    back for the one they put in, whoever submitted it, and ping takes none
    back. *)
Theorem queue_grows_by_one_per_ping cpu vwdt ops m sched :
  let s := run sched {| mach := m;
                        threads := virtwdt_ops cpu vwdt <$> ops |} in
  buffers (ring (mach s)) + total debt (threads s)
  = buffers (ring m) + Z.of_nat (length (filter is_ping ops)) /\
  (all_returned s = true ->
   (length (avail (ring (mach s))) + length (used (ring (mach s))))%nat
   = (length (avail (ring m)) + length (used (ring m))
      + length (filter is_ping ops))%nat).
Proof.
  intros s.
  pose proof (run_conserved (λ m, buffers (ring m)) debt step_call_debt
                host_step_buffers sched
                {| mach := m; threads := virtwdt_ops cpu vwdt <$> ops |})
    as H.
  fold s in H. simpl in H. rewrite ops_debt in H. split; [exact H|].
  intros Hr. rewrite (all_returned_total s debt) in H by done.
  unfold buffers in H. lia.
Qed.

Lemma queue_grows_by_one_per_ping_witness :
  let s := run [Caller 0; Caller 0; Host; Caller 0; Caller 1; Caller 1;
                Caller 2; Caller 2]
             {| mach := wdt_machine;
                threads := virtwdt_ops LittleEndian (session wdt_machine)
                           <$> [Start; Ping; Ping] |} in
  (length (avail (ring (mach s))) + length (used (ring (mach s))))%nat
  = 2%nat.
Proof.
  intros s.
  destruct (queue_grows_by_one_per_ping LittleEndian (session wdt_machine)
              [Start; Ping; Ping] wdt_machine
              [Caller 0; Caller 0; Host; Caller 0; Caller 1; Caller 1;
               Caller 2; Caller 2]) as (_ & H).
  apply H. reflexivity.
Defined.

(** X9. Through every interleaving, the kicks given plus the kicks the
    calls in progress still have to give equal the kicks at the start plus
    one per start, stop or ping; once every call has returned the remote
    side has been notified exactly once per message, and set_timeout never
    notifies. *)
Theorem one_kick_per_message cpu vwdt ops m sched :
  let s := run sched {| mach := m;
                        threads := virtwdt_ops cpu vwdt <$> ops |} in
  Z.of_nat (kicks (ring (mach s)))
  + total (λ c, Z.of_nat (notifications c)) (threads s)
  = Z.of_nat (kicks (ring m) + length (filter sends ops)) /\
  (all_returned s = true ->
   kicks (ring (mach s)) = (kicks (ring m) + length (filter sends ops))%nat).
Proof.
  intros s.
  pose proof (run_conserved (λ m, Z.of_nat (kicks (ring m)))
                (λ c, Z.of_nat (notifications c)) step_call_kicks
                host_step_kicks sched
                {| mach := m; threads := virtwdt_ops cpu vwdt <$> ops |})
    as H.
  fold s in H. simpl in H. rewrite ops_notifications in H. split.
  - lia.
  - intros Hr.
    rewrite (all_returned_total s (λ c, Z.of_nat (notifications c))) in H
      by done.
    lia.
Qed.

Lemma one_kick_per_message_witness :
  let s := run [Caller 0; Caller 1; Caller 1; Caller 2; Caller 2]
             {| mach := wdt_machine;
                threads := virtwdt_ops BigEndian (session wdt_machine)
                           <$> [Set_timeout 10; Ping; Ping] |} in
  kicks (ring (mach s)) = 2%nat.
Proof.
  intros s.
  destruct (one_kick_per_message BigEndian (session wdt_machine)
              [Set_timeout 10; Ping; Ping] wdt_machine
              [Caller 0; Caller 1; Caller 1; Caller 2; Caller 2]) as (_ & H).
  apply H. reflexivity.
Defined.

(** ** The configuration space *)

Lemma step_call_config (P : Z -> Prop) tid m (c : call Z) m' c' :
  step_call tid m c = Some (m', c') ->
  P (config_timeout m) -> Forall P (config_writes c) ->
  P (config_timeout m') /\ Forall P (config_writes c').
Proof.
  destruct c; simpl; intros H Hm Hc; simplify_eq; simpl; try done.
  - destruct (asleep tid m); [done|].
    destruct (virtqueue_get_buf (ring m)) as [[b q]|]; by simplify_eq.
  - by inversion_clear Hc.
Qed.

Lemma host_step_config m : config_timeout (host_step m) = config_timeout m.
Proof. unfold host_step. by destruct (vq_consume (ring m)). Qed.

Lemma run_config (P : Z -> Prop) sched : forall s,
  P (config_timeout (mach s)) ->
  Forall (λ c, Forall P (config_writes c)) (threads s) ->
  P (config_timeout (mach (run sched s))).
Proof.
  induction sched as [|a sched IH]; intros s Hm Hc; [done|].
  rewrite run_cons. destruct a as [|i]; simpl.
  - apply IH; simpl; [by rewrite host_step_config|done].
  - destruct (threads s !! i) as [c|] eqn:Hi; [|by apply IH].
    destruct (step_call i (mach s) c) as [[m c']|] eqn:E; [|by apply IH].
    assert (Forall P (config_writes c)) as Hw.
    { rewrite Forall_lookup in Hc. by apply (Hc i c). }
    destruct (step_call_config P _ _ _ _ _ E Hm Hw) as [Hm' Hc'].
    apply IH; simpl; [done|]. by apply Forall_insert.
Qed.

(** X10. Through every interleaving of watchdog calls with the remote
    side, the timeout in the device's configuration space is the one it
    held at the start or the argument (as an unsigned 32-bit number) of one
    of the set_timeout calls: start, stop and ping never write it, and
    nothing else does behind set_timeout's back. *)
Theorem config_written_by_set_timeout_only cpu vwdt ops m sched :
  let s := run sched {| mach := m;
                        threads := virtwdt_ops cpu vwdt <$> ops |} in
  config_timeout (mach s) = config_timeout m \/
  exists v, Set_timeout v ∈ ops /\ config_timeout (mach s) = u32 v.
Proof.
  intros s.
  apply (run_config
           (λ x, x = config_timeout m \/
                 exists v, Set_timeout v ∈ ops /\ x = u32 v)); simpl.
  - by left.
  - apply Forall_fmap, Forall_forall. intros op Hop. unfold compose.
    destruct op as [| | |v]; cbn [virtwdt_ops].
    + rewrite ping_code. simpl. constructor.
    + simpl. constructor.
    + simpl. constructor.
    + simpl. constructor; [|constructor]. right. exists v.
      split; [by apply list_elem_of_In|done].
Qed.

(** ** The session's own fields *)

(** X11. After a successful probe, no interleaving of start, stop, ping and
    set_timeout calls with the remote side ever takes the session's lock or
    changes its device, its queue handle or the settings handed to the
    watchdog core (bounds, nowayout, stop-on-reboot, stop-on-unregister):
    apart from the wait queue the session stays as probe left it. *)
Theorem session_left_as_probed cpu env dev cfg k m ops sched :
  virtwdt_probe env dev (fresh cfg) = (0, k) ->
  attached k = Some m ->
  let s := run sched {| mach := m;
                        threads := virtwdt_ops cpu (session m) <$> ops |} in
  lock (session (mach s)) = false /\
  vq (session (mach s)) = VqEvent /\
  vdev (session (mach s)) = dev /\
  min_timeout (wdd (session (mach s))) = 1 /\
  max_timeout (wdd (session (mach s))) = 600 /\
  nowayout (wdd (session (mach s))) = param_nowayout env /\
  stop_on_reboot (wdd (session (mach s))) = true /\
  stop_on_unregister (wdd (session (mach s))) = true.
Proof.
  intros Hp Ha s. subst s.
  destruct (probe_success _ _ _ _ _ Hp Ha) as (_ & _ & ->).
  match goal with |- context [run sched ?s0] =>
    pose proof (run_settings sched s0) as Hs; set (s := run sched s0) in *
  end.
  unfold settings in Hs. cbn [mach session] in Hs.
  injection Hs as Hd Hw Hq _ Hl.
  rewrite Hl, Hq, Hd, Hw. done.
Qed.

Lemma session_left_as_probed_witness :
  let s := run [Caller 0; Caller 1; Caller 0; Caller 0; Host; Caller 0]
             {| mach := wdt_machine;
                threads := virtwdt_ops BigEndian (session wdt_machine)
                           <$> [Stop; Set_timeout 5] |} in
  lock (session (mach s)) = false /\ vq (session (mach s)) = VqEvent.
Proof.
  intros s.
  destruct (session_left_as_probed BigEndian plain_env wdt_device 0
              (virtwdt_probe plain_env wdt_device (fresh 0)).2 wdt_machine
              [Stop; Set_timeout 5]
              [Caller 0; Caller 1; Caller 0; Caller 0; Host; Caller 0]
              eq_refl eq_refl) as (H1 & H2 & _).
  split; [exact H1 | exact H2].
Defined.

(** ** Waiting and waking *)

Lemma sync_ops_code cpu vwdt op t :
  synchronous op = true -> event_type op = Some t ->
  virtwdt_ops cpu vwdt op = sync_code (message cpu vwdt t).
Proof. destruct op; simpl; intros; simplify_eq; reflexivity. Qed.



(** X5. A start or stop called on a queue with nothing on it, and running
    alone (no other call in progress on the session), that has returned has
    returned 0, the remote side has moved, and the queue is empty again:
    the call's own buffer was consumed and taken back before it
    returned. *)
Theorem sync_call_returns_after_its_ack cpu vwdt op m sched r :
  synchronous op = true ->
  avail (ring m) = [] -> used (ring m) = [] ->
  let s := run sched {| mach := m; threads := [virtwdt_ops cpu vwdt op] |} in
  returned s 0 = Some r ->
  r = 0 /\ Host ∈ sched /\
  avail (ring (mach s)) = [] /\ used (ring (mach s)) = [].
Proof.
  intros Hop Ha Hu s Hr.
  assert (exists t, event_type op = Some t) as [t Ht]
    by (destruct op; simpl in *; eauto; done).
  subst s. rewrite (sync_ops_code cpu vwdt op t Hop Ht) in *.
  destruct (sync_call_waits_for_its_buffer _ m sched Ha Hu r Hr)
    as (-> & Ha' & Hu').
  split; [done|]. split; [|done].
  destruct (decide (Host ∈ sched)) as [|Hn]; [done|].
  rewrite (sync_call_never_times_out _ sched m _ (or_introl eq_refl) Hu Hn)
    in Hr.
  done.
Qed.

Lemma sync_call_returns_after_its_ack_witness :
  let s := run [Caller 0; Caller 0; Caller 0; Host; Caller 0]
             {| mach := wdt_machine;
                threads := [virtwdt_ops BigEndian (session wdt_machine)
                              Stop] |} in
  returned s 0 = Some 0 /\
  avail (ring (mach s)) = [] /\ used (ring (mach s)) = [].
Proof.
  intros s.
  destruct (sync_call_returns_after_its_ack BigEndian (session wdt_machine)
              Stop wdt_machine
              [Caller 0; Caller 0; Caller 0; Host; Caller 0] 0
              eq_refl eq_refl eq_refl eq_refl) as (_ & _ & H).
  split; [reflexivity | exact H].
Defined.

(** X6. The wait of start and stop has no timeout: called with no returned
    buffer on the queue, the call has not returned after any number of
    turns as long as the remote side has not moved. *)
Theorem sync_call_blocks_while_remote_silent cpu vwdt op m sched :
  synchronous op = true ->
  used (ring m) = [] ->
  Host ∉ sched ->
  returned (run sched {| mach := m; threads := [virtwdt_ops cpu vwdt op] |}) 0
  = None.
Proof.
  intros Hop Hu Hn.
  assert (exists t, event_type op = Some t) as [t Ht]
    by (destruct op; simpl in *; eauto; done).
  rewrite (sync_ops_code cpu vwdt op t Hop Ht).
  apply (sync_call_never_times_out (message cpu vwdt t)); [by left|done|done].
Qed.

Lemma sync_call_blocks_while_remote_silent_witness :
  returned
    (run (replicate 50 (Caller 0))
       {| mach := wdt_machine;
          threads := [virtwdt_ops LittleEndian (session wdt_machine)
                        Start] |})
    0
  = None.
Proof.
  apply sync_call_blocks_while_remote_silent; [reflexivity|reflexivity|].
  intros H%elem_of_replicate_inv. discriminate H.
Defined.



(** ** A synchronous call does return *)

Lemma lead_step sg s a :
  sync_state sg s ->
  lead (sys_step s a)
  = if decide (a = Caller 0) then Nat.pred (lead s) else lead s.
Proof.
  intros Hs. destruct a as [|[|i]].
  - by destruct Hs.
  - destruct Hs as [m Ha Hu|m Hf|m Hf|m Ha Hu]; simpl; try done.
    unfold lead. simpl. destruct (asleep 0 m); [done|].
    by destruct (virtqueue_get_buf (ring m)) as [[b q]|].
  - by destruct Hs.
Qed.

Lemma lead_run sg sched : forall s,
  sync_state sg s -> lead (run sched s) = (lead s - turns 0 sched)%nat.
Proof.
  induction sched as [|a sched IH]; intros s Hs.
  - unfold run, turns. simpl. lia.
  - rewrite run_cons, IH by by apply sync_state_step.
    rewrite (lead_step sg s a Hs).
    destruct (decide (a = Caller 0)) as [->|Hne].
    + rewrite turns_cons_self. lia.
    + by rewrite turns_cons_other.
Qed.

Lemma acked_awake_step sg s a :
  sync_state sg s -> acked_awake s -> acked_awake (sys_step s a).
Proof.
  unfold acked_awake. intros Hs Hw. destruct a as [|[|i]].
  - simpl. unfold host_step.
    destruct (vq_consume (ring (mach s))) as [q|]; [done|exact Hw].
  - destruct Hs as [m Ha Hu|m Hf|m Hf|m Ha Hu]; simpl in *.
    + intros H. by rewrite Hu in H.
    + exact Hw.
    + destruct (asleep 0 m) eqn:Hz; [simpl; rewrite Hz; exact Hw|].
      unfold virtqueue_get_buf.
      destruct Hf as [[Ha Hu]|[Ha Hu]]; rewrite Hu; simpl.
      * intros H. by rewrite Hu in H.
      * done.
    + exact Hw.
  - by destruct Hs.
Qed.

Lemma acked_awake_run sg sched : forall s,
  sync_state sg s -> acked_awake s -> acked_awake (run sched s).
Proof.
  induction sched as [|a sched IH]; intros s Hs Hw; [done|].
  rewrite run_cons.
  apply IH; [by apply sync_state_step|by eapply acked_awake_step].
Qed.

Lemma host_acks sg s :
  sync_state sg s -> acked_awake s -> lead s = 0%nat ->
  acked sg (sys_step s Host).
Proof.
  unfold acked_awake, acked.
  intros Hs Hw Hl. destruct Hs as [m Ha Hu|m Hf|m Hf|m Ha Hu];
    try done; simpl in *; [|by left].
  right. split; [done|]. unfold host_step, vq_consume.
  destruct Hf as [[Ha Hu]|[Ha Hu]]; rewrite Ha; simpl.
  - by rewrite Hu.
  - rewrite Ha, Hu. repeat split. apply Hw. by rewrite Hu.
Qed.

Lemma acked_step sg s a : acked sg s -> acked sg (sys_step s a).
Proof.
  unfold acked. destruct s as [m ts]. simpl.
  intros [->|(-> & Ha & Hu & Hz)]; destruct a as [|[|i]]; simpl;
    try (by left).
  - right. unfold host_step, vq_consume. by rewrite Ha.
  - left. rewrite Hz. unfold virtqueue_get_buf. by rewrite Hu.
  - by right.
Qed.

Lemma acked_run sg sched : forall s, acked sg s -> acked sg (run sched s).
Proof.
  induction sched as [|a sched IH]; intros s Hs; [done|].
  rewrite run_cons. by apply IH, acked_step.
Qed.

Lemma acked_turn sg s :
  acked sg s -> threads (sys_step s (Caller 0)) = [Return 0].
Proof.
  unfold acked. destruct s as [m ts]. simpl.
  intros [->|(-> & Ha & Hu & Hz)]; simpl; [done|].
  rewrite Hz. unfold virtqueue_get_buf. by rewrite Hu.
Qed.

Lemma returned_stays sched : forall s r,
  threads s = [Return r] -> threads (run sched s) = [Return r].
Proof.
  induction sched as [|a sched IH]; intros s r Hs; [done|].
  rewrite run_cons. apply IH.
  destruct a as [|[|i]]; simpl; rewrite ?Hs; done.
Qed.

(** X7. A start or stop called on a queue with nothing on it, and running
    alone (no other call in progress on the session), does return: once the
    caller has had its first two turns (submit, kick), the remote side has
    then moved once, and the caller has then had one more turn, the call
    has returned 0, wherever in the interleaving of the caller with the
    remote side these moves fall and whatever further moves of the two come
    between and after them. *)
Theorem sync_call_returns_once_acked cpu vwdt op m sched1 sched2 sched3 :
  synchronous op = true ->
  avail (ring m) = [] -> used (ring m) = [] ->
  (2 <= turns 0 sched1)%nat ->
  returned
    (run (sched1 ++ Host :: sched2 ++ Caller 0 :: sched3)
       {| mach := m; threads := [virtwdt_ops cpu vwdt op] |})
    0
  = Some 0.
Proof.
  intros Hop Ha Hu Hn.
  assert (exists t, event_type op = Some t) as [t Ht]
    by (destruct op; simpl in *; eauto; done).
  rewrite (sync_ops_code cpu vwdt op t Hop Ht).
  set (sg := message cpu vwdt t).
  set (s0 := {| mach := m; threads := [sync_code sg] |}).
  assert (sync_state sg s0) as H0 by by apply At_add.
  assert (acked_awake s0) as W0.
  { unfold acked_awake, s0. simpl. by rewrite Hu. }
  pose proof (sync_state_run sg sched1 s0 H0) as H1.
  pose proof (acked_awake_run sg sched1 s0 H0 W0) as W1.
  assert (lead (run sched1 s0) = 0%nat) as L1.
  { rewrite (lead_run sg sched1 s0 H0). unfold lead, s0. simpl. lia. }
  pose proof (host_acks sg _ H1 W1 L1) as A.
  apply (acked_run sg sched2) in A. apply acked_turn in A.
  apply (returned_stays sched3) in A.
  rewrite run_app, run_cons, run_app, run_cons.
  unfold returned. by rewrite A.
Qed.

Lemma sync_call_returns_once_acked_witness :
  returned
    (run ([Host; Caller 0; Caller 0; Caller 0] ++ Host
          :: [Host; Host] ++ Caller 0 :: [Host; Caller 0])
       {| mach := wdt_machine;
          threads := [virtwdt_ops BigEndian (session wdt_machine) Start] |})
    0
  = Some 0.
Proof.
  apply sync_call_returns_once_acked;
    [reflexivity | reflexivity | reflexivity | vm_compute; lia].
Defined.

(** ** Attach and detach, end to end *)

(** X1. probe returns 0 exactly when the device offers the version-1
    feature and config access, the session can be allocated, the queue can
    be set up and the watchdog core accepts the registration.  It then
    leaves a session with timeout 30 on an empty queue, registered before
    the device is marked ready, and the device's configuration space as it
    found it: the resolved timeout is not sent to the device. *)
Theorem probe_succeeds_exactly_when env dev cfg :
  let r := virtwdt_probe env dev (fresh cfg) in
  (r.1 = 0 <->
   virtio_has_feature dev VIRTIO_F_VERSION_1 = true /\
   config_get dev = true /\
   kzalloc_ok env = true /\
   find_vq_error env = None /\
   register_result env = 0) /\
  (r.1 = 0 ->
   attached r.2
   = Some {| session := configured env dev; ring := empty_vq;
             config_timeout := cfg |} /\
   driver_ok r.2 = true /\
   priv r.2 = true /\
   trace r.2 = [Op_kzalloc; Op_find_vq; Op_register; Op_device_ready]).
Proof.
  intros r. subst r. rewrite probe_run.
  destruct (virtio_has_feature dev VIRTIO_F_VERSION_1);
    [|simpl; split; [split; [done|intros (?&?&?&?&?); done]|done]].
  destruct (config_get dev);
    [|simpl; split; [split; [done|intros (?&?&?&?&?); done]|done]].
  destruct (kzalloc_ok env);
    [|simpl; split; [split; [done|intros (?&?&?&?&?); done]|done]].
  destruct (find_vq_error env) as [e|];
    [simpl; split; [split; [done|intros (?&?&?&?&?); done]|done]|].
  destruct (register_result env =? 0) eqn:E; simpl.
  - apply Z.eqb_eq in E. done.
  - apply Z.eqb_neq in E.
    split; [split; [done|intros (?&?&?&?&?); done]|done].
Qed.

Lemma probe_succeeds_exactly_when_witness :
  attached (virtwdt_probe plain_env wdt_device (fresh 7)).2
  = Some {| session := configured plain_env wdt_device; ring := empty_vq;
            config_timeout := 7 |}.
Proof.
  destruct (probe_succeeds_exactly_when plain_env wdt_device 7) as (_ & H).
  apply H. reflexivity.
Defined.

(** X2. The value probe returns names the first step that failed: -ENODEV
    (-19) without the version-1 feature, else -EINVAL (-22) without config
    access, else -ENOMEM (-12) when the session cannot be allocated or the
    queue cannot be set up, else whatever watchdog_register_device
    returned, passed on unchanged. *)
Theorem probe_return_value env dev cfg :
  (virtwdt_probe env dev (fresh cfg)).1
  = if negb (virtio_has_feature dev VIRTIO_F_VERSION_1) then -19
    else if negb (config_get dev) then -22
    else if negb (kzalloc_ok env) then -12
    else if bool_decide (find_vq_error env ≠ None) then -12
    else register_result env.
Proof.
  rewrite probe_run.
  destruct (virtio_has_feature dev VIRTIO_F_VERSION_1); [|done].
  destruct (config_get dev); [|done].
  destruct (kzalloc_ok env); [|done].
  destruct (find_vq_error env) as [e|]; [done|]. simpl.
  destruct (register_result env =? 0) eqn:E; [|done].
  apply Z.eqb_eq in E. by rewrite E.
Qed.

(** X3. Detaching an attached session resets the device, deletes the queue
    and then frees the session, in that order, but never unregisters the
    watchdog: afterwards the watchdog core still holds the registration
    while the session block is gone and vdev->priv still holds its
    address. *)
Theorem remove_leaves_watchdog_registered env dev cfg k :
  virtwdt_probe env dev (fresh cfg) = (0, k) ->
  let k' := (virtwdt_remove k).2 in
  heap k' = None /\ queue k' = None /\ driver_ok k' = false /\
  registered k' = true /\ priv k' = true /\
  attached k' = None /\
  trace k' = [Op_kzalloc; Op_find_vq; Op_register; Op_device_ready;
              Op_reset; Op_del_vqs; Op_kfree].
Proof.
  intros Hp k'. subst k'. rewrite probe_run in Hp.
  destruct (virtio_has_feature dev VIRTIO_F_VERSION_1); [|done].
  destruct (config_get dev); [|done].
  destruct (kzalloc_ok env); [|done].
  destruct (find_vq_error env) as [e|]; [done|].
  destruct (register_result env =? 0) eqn:E.
  - injection Hp as <-. done.
  - injection Hp as Hr _. rewrite Hr in E. done.
Qed.

Lemma remove_leaves_watchdog_registered_witness :
  let k := (virtwdt_probe plain_env wdt_device (fresh 0)).2 in
  registered (virtwdt_remove k).2 = true /\ heap (virtwdt_remove k).2 = None.
Proof.
  intros k.
  destruct (remove_leaves_watchdog_registered plain_env wdt_device 0 k
              eq_refl) as (H1 & _ & _ & H2 & _).
  split; [exact H2 | exact H1].
Defined.

(** virtwdt_probe run from any kernel state. *)
Lemma probe_run_any env dev k :
  virtwdt_probe env dev k =
  if negb (virtio_has_feature dev VIRTIO_F_VERSION_1) then (- ENODEV, k)
  else if negb (config_get dev) then (- EINVAL, k)
  else if negb (kzalloc_ok env) then (- ENOMEM, with_priv false k)
  else match find_vq_error env with
       | Some e =>
           (- ENOMEM,
            {| heap := None; priv := true; queue := queue k;
               registered := registered k; driver_ok := driver_ok k;
               kconfig_timeout := kconfig_timeout k;
               trace := trace k ++ [Op_kzalloc; Op_kfree] |})
       | None =>
           if register_result env =? 0 then
             (0,
              {| heap := Some (configured env dev); priv := true;
                 queue := Some empty_vq; registered := true;
                 driver_ok := true; kconfig_timeout := kconfig_timeout k;
                 trace := trace k ++ [Op_kzalloc; Op_find_vq; Op_register;
                                      Op_device_ready] |})
           else
             (register_result env,
              {| heap := None; priv := true; queue := None;
                 registered := registered k; driver_ok := false;
                 kconfig_timeout := kconfig_timeout k;
                 trace := trace k ++ [Op_kzalloc; Op_find_vq; Op_reset;
                                      Op_del_vqs; Op_kfree] |})
       end.
Proof.
  unfold virtwdt_probe, configured, kzalloc, virtwdt_init_vq,
    virtio_find_single_vq, watchdog_register_device, store_wdd,
    watchdog_init_timeout.
  destruct (virtio_has_feature dev VIRTIO_F_VERSION_1); [|done].
  destruct (config_get dev); [|done].
  destruct (kzalloc_ok env); [|done].
  destruct (find_vq_error env) as [e|].
  { unfold mbind, mret, kernel_bind, kernel_ret. simpl.
    cbv [logged with_heap with_priv with_queue with_registered
         with_driver_ok heap priv queue registered driver_ok
         kconfig_timeout trace].
    by rewrite <- !app_assoc. }
  destruct (param_nowayout env); destruct (u32 (param_timeout env) =? 0);
    destruct (register_result env =? 0) eqn:E;
    unfold mbind, mret, kernel_bind, kernel_ret; cbn; rewrite ?E; cbn;
    cbv [logged with_heap with_priv with_queue with_registered
         with_driver_ok heap priv queue registered driver_ok
         kconfig_timeout trace];
    by rewrite <- !app_assoc.
Qed.

(** X13. An attach does not depend on what an earlier failed attach or a
    detach left behind (a stale vdev->priv, a standing registration, the
    device's ready bit): from any kernel state that holds no session block
    and no queue, probe with a version-1 device and every kernel service
    succeeding returns 0 and leaves the same freshly configured session on
    an empty queue as a first attach.  In particular attach, detach, attach
    ends in the state of the first attach. *)
Theorem probe_again_after_release env dev k :
  heap k = None -> queue k = None ->
  virtio_has_feature dev VIRTIO_F_VERSION_1 = true ->
  config_get dev = true ->
  kzalloc_ok env = true -> find_vq_error env = None ->
  register_result env = 0 ->
  let r := virtwdt_probe env dev k in
  r.1 = 0 /\
  attached r.2
  = Some {| session := configured env dev; ring := empty_vq;
            config_timeout := kconfig_timeout k |} /\
  (forall env0 cfg k1,
     virtwdt_probe env0 dev (fresh cfg) = (0, k1) ->
     attached (virtwdt_probe env dev (virtwdt_remove k1).2).2
     = attached (virtwdt_probe env dev (fresh cfg)).2).
Proof.
  intros Hh Hq Hf Hg Hk Hv Hr r. subst r.
  rewrite probe_run_any, Hf, Hg, Hk, Hv, Hr. simpl.
  split; [done|]. split; [done|].
  intros env0 cfg k1 H1.
  rewrite probe_run_any, probe_run, Hf, Hg, Hk, Hv, Hr. simpl.
  rewrite probe_run in H1.
  destruct (kzalloc_ok env0); [|rewrite Hf, Hg in H1; done].
  rewrite Hf, Hg in H1. simpl in H1.
  destruct (find_vq_error env0); [done|].
  destruct (register_result env0 =? 0); by simplify_eq.
Qed.

Lemma probe_again_after_release_witness :
  let k := (virtwdt_probe busy_env wdt_device (fresh 3)).2 in
  (virtwdt_probe plain_env wdt_device k).1 = 0 /\
  attached (virtwdt_probe plain_env wdt_device k).2
  = Some {| session := configured plain_env wdt_device; ring := empty_vq;
            config_timeout := 3 |}.
Proof.
  intros k.
  destruct (probe_again_after_release plain_env wdt_device k
              eq_refl eq_refl eq_refl eq_refl eq_refl eq_refl eq_refl)
    as (H1 & H2 & _).
  split; [exact H1 | exact H2].
Defined.
